(** * thunar-vfs-info: the file descriptor record of Thunar's VFS layer

    A shallow embedding of [thunar-vfs-info.c]: the builder
    [thunar_vfs_info_new_for_uri], the operators [thunar_vfs_info_rename] and
    [thunar_vfs_info_execute], and the comparison [thunar_vfs_info_matches].

    The C code talks to the operating system and to several collaborators
    (the URI abstraction, the MIME database, libxfce4util's rc reader, GLib's
    key files, GDK's process launcher).  All of them are gathered in one
    record of operations, [Env]; the file system is an explicit state that is
    threaded through every call, and the calls that change the outside world
    are recorded in a trace. *)

From stdpp Require Import base list strings.
From Stdlib Require Import Ascii ZArith Lia.

Open Scope string_scope.
Open Scope Z_scope.

(** ** Constants of <sys/stat.h>, <unistd.h> and <errno.h> *)

Definition S_IFMT : Z := 0xF000.   (* 0170000 *)
Definition S_IFLNK : Z := 0xA000.  (* 0120000 *)
Definition X_OK : Z := 1.
Definition EEXIST : Z := 17.

Definition S_ISLNK (m : Z) : bool := Z.land m S_IFMT =? S_IFLNK.

Record struct_stat : Type := {
  st_mode : Z;
  st_uid : Z;
  st_gid : Z;
  st_size : Z;
  st_atime : Z;
  st_ctime : Z;
  st_mtime : Z;
  st_ino : Z;
  st_dev : Z
}.

(** A system call either fills its result or fails with an errno. *)
Inductive sys_result (A : Type) : Type :=
| SysOk (a : A)
| SysErr (errno : Z).
Arguments SysOk {A} a.
Arguments SysErr {A} errno.

(** ** Declarations of thunar-vfs-info.h *)

(** Modelled from the spec: the enumeration [ThunarVfsFileType] of
    thunar-vfs-info.h, which is not part of the sources at hand.  The variants
    are the file-type bits of the mode shifted down by twelve, as the builder
    computes them. *)
Definition THUNAR_VFS_FILE_TYPE_SOCKET : Z := Z.shiftr 0xC000 12.
Definition THUNAR_VFS_FILE_TYPE_SYMLINK : Z := Z.shiftr 0xA000 12.
Definition THUNAR_VFS_FILE_TYPE_REGULAR : Z := Z.shiftr 0x8000 12.
Definition THUNAR_VFS_FILE_TYPE_BLOCKDEV : Z := Z.shiftr 0x6000 12.
Definition THUNAR_VFS_FILE_TYPE_DIRECTORY : Z := Z.shiftr 0x4000 12.
Definition THUNAR_VFS_FILE_TYPE_CHARDEV : Z := Z.shiftr 0x2000 12.
Definition THUNAR_VFS_FILE_TYPE_FIFO : Z := Z.shiftr 0x1000 12.
Definition THUNAR_VFS_FILE_TYPE_UNKNOWN : Z := 0.

(** Modelled from the spec: the bit set [ThunarVfsFileFlags] of
    thunar-vfs-info.h (not at hand): two distinct bits, [symlink] and
    [executable]. *)
Definition THUNAR_VFS_FILE_FLAGS_NONE : Z := 0.
Definition THUNAR_VFS_FILE_FLAGS_SYMLINK : Z := Z.shiftl 1 0.
Definition THUNAR_VFS_FILE_FLAGS_EXECUTABLE : Z := Z.shiftl 1 1.

(** Modelled from the spec: the hint kinds [ThunarVfsFileHint] of
    thunar-vfs-info.h (not at hand): icon, display-name override, and the
    sentinel count. *)
Definition THUNAR_VFS_FILE_HINT_ICON : nat := 0.
Definition THUNAR_VFS_FILE_HINT_NAME : nat := 1.
Definition THUNAR_VFS_FILE_N_HINTS : nat := 2.

(** A content-type record is interned by the MIME database: the descriptor
    holds a pointer to it, and pointers are compared, not names. *)
Definition ThunarVfsMimeInfo : Type := positive.

(** ** Errors *)

Inductive GErrorCode : Type :=
| G_FILE_ERROR_EXIST
| G_FILE_ERROR_INVAL
| G_ERROR_OTHER (domain : string) (code : Z).

Record GError : Type := {
  error_code : GErrorCode;
  error_message : string
}.

(** ** The collaborators *)

Record Env : Type := {
  (* the types owned by the collaborators *)
  ThunarVfsURI : Type;
  FileSystem : Type;
  GdkScreen : Type;
  XfceRcData : Type;
  GKeyFile : Type;
  (* thunar-vfs-uri *)
  thunar_vfs_uri_get_path : ThunarVfsURI -> string;
  thunar_vfs_uri_get_display_name : ThunarVfsURI -> string;
  thunar_vfs_uri_equal : ThunarVfsURI -> ThunarVfsURI -> bool;
  thunar_vfs_uri_new_for_path : string -> ThunarVfsURI;
  (* thunar-vfs-mime-database, already bound to the global [mime_database] *)
  thunar_vfs_mime_database_get_info : string -> ThunarVfsMimeInfo;
  thunar_vfs_mime_database_get_info_for_file :
    FileSystem -> string -> string -> ThunarVfsMimeInfo;
  thunar_vfs_mime_database_get_infos_for_info :
    ThunarVfsMimeInfo -> list ThunarVfsMimeInfo;
  thunar_vfs_mime_info_get_name : ThunarVfsMimeInfo -> string;
  (* thunar-vfs-sysdep *)
  _thunar_vfs_sysdep_parse_exec :
    string -> list ThunarVfsURI -> option string -> option string ->
    option string -> bool -> GError + list string;
  (* POSIX *)
  lstat : FileSystem -> string -> sys_result struct_stat;
  stat : FileSystem -> string -> sys_result struct_stat;
  g_access : FileSystem -> string -> Z -> Z;
  g_rename : FileSystem -> string -> string -> sys_result FileSystem;
  (* libxfce4util: the entry of a group of an rc file, translated or not;
     the group [None] is the one before the first group header *)
  xfce_rc_simple_open_data : FileSystem -> string -> bool -> option XfceRcData;
  xfce_rc_lookup : XfceRcData -> option string -> string -> bool -> option string;
  xfce_rc_lookup_bool : XfceRcData -> option string -> string -> bool -> bool;
  (* GLib *)
  g_file_error_from_errno : Z -> GErrorCode;
  g_strerror : Z -> string;
  g_utf8_validate : string -> bool;
  g_get_language_names : list string;
  g_shell_quote : string -> string;
  g_path_get_dirname : string -> string;
  g_build_filename : string -> string -> string;
  g_filename_from_utf8 : string -> GError + string;
  g_file_test_exists : FileSystem -> string -> bool;
  g_file_set_contents : FileSystem -> string -> string -> FileSystem * option GError;
  g_key_file_load_from_file : FileSystem -> string -> GError + GKeyFile;
  g_key_file_has_group : GKeyFile -> string -> bool;
  g_key_file_has_key : GKeyFile -> string -> string -> bool;
  g_key_file_set_string : GKeyFile -> string -> string -> string -> GKeyFile;
  g_key_file_to_data : GKeyFile -> GError + string;
  (* GDK *)
  gdk_screen_get_default : GdkScreen;
  gdk_spawn_on_screen :
    FileSystem -> GdkScreen -> string -> list string -> option GError
}.

(** ** The descriptor *)

Record ThunarVfsInfo (E : Env) : Type := {
  info_type : Z;
  info_mode : Z;
  info_flags : Z;
  info_uid : Z;
  info_gid : Z;
  info_size : Z;
  info_atime : Z;
  info_mtime : Z;
  info_ctime : Z;
  info_inode : Z;
  info_device : Z;
  info_mime_info : ThunarVfsMimeInfo;
  info_uri : ThunarVfsURI E;
  info_display_name : string;
  info_hints : option (list (option string));
  info_ref_count : Z
}.
Arguments info_type {E} _.
Arguments info_mode {E} _.
Arguments info_flags {E} _.
Arguments info_uid {E} _.
Arguments info_gid {E} _.
Arguments info_size {E} _.
Arguments info_atime {E} _.
Arguments info_mtime {E} _.
Arguments info_ctime {E} _.
Arguments info_inode {E} _.
Arguments info_device {E} _.
Arguments info_mime_info {E} _.
Arguments info_uri {E} _.
Arguments info_display_name {E} _.
Arguments info_hints {E} _.
Arguments info_ref_count {E} _.

(** Field updates, one per assignment form of the C code. *)
Definition set_flags {E} (i : ThunarVfsInfo E) (f : Z) : ThunarVfsInfo E :=
  {| info_type := info_type i; info_mode := info_mode i; info_flags := f;
     info_uid := info_uid i; info_gid := info_gid i; info_size := info_size i;
     info_atime := info_atime i; info_mtime := info_mtime i;
     info_ctime := info_ctime i; info_inode := info_inode i;
     info_device := info_device i; info_mime_info := info_mime_info i;
     info_uri := info_uri i; info_display_name := info_display_name i;
     info_hints := info_hints i; info_ref_count := info_ref_count i |}.

Definition set_mime_info {E} (i : ThunarVfsInfo E) (m : ThunarVfsMimeInfo)
  : ThunarVfsInfo E :=
  {| info_type := info_type i; info_mode := info_mode i;
     info_flags := info_flags i;
     info_uid := info_uid i; info_gid := info_gid i; info_size := info_size i;
     info_atime := info_atime i; info_mtime := info_mtime i;
     info_ctime := info_ctime i; info_inode := info_inode i;
     info_device := info_device i; info_mime_info := m;
     info_uri := info_uri i; info_display_name := info_display_name i;
     info_hints := info_hints i; info_ref_count := info_ref_count i |}.

Definition set_hints {E} (i : ThunarVfsInfo E) (h : option (list (option string)))
  : ThunarVfsInfo E :=
  {| info_type := info_type i; info_mode := info_mode i;
     info_flags := info_flags i;
     info_uid := info_uid i; info_gid := info_gid i; info_size := info_size i;
     info_atime := info_atime i; info_mtime := info_mtime i;
     info_ctime := info_ctime i; info_inode := info_inode i;
     info_device := info_device i; info_mime_info := info_mime_info i;
     info_uri := info_uri i; info_display_name := info_display_name i;
     info_hints := h; info_ref_count := info_ref_count i |}.

Definition set_uri {E} (i : ThunarVfsInfo E) (u : ThunarVfsURI E)
  : ThunarVfsInfo E :=
  {| info_type := info_type i; info_mode := info_mode i;
     info_flags := info_flags i;
     info_uid := info_uid i; info_gid := info_gid i; info_size := info_size i;
     info_atime := info_atime i; info_mtime := info_mtime i;
     info_ctime := info_ctime i; info_inode := info_inode i;
     info_device := info_device i; info_mime_info := info_mime_info i;
     info_uri := u; info_display_name := info_display_name i;
     info_hints := info_hints i; info_ref_count := info_ref_count i |}.

Definition set_display_name {E} (i : ThunarVfsInfo E) (n : string)
  : ThunarVfsInfo E :=
  {| info_type := info_type i; info_mode := info_mode i;
     info_flags := info_flags i;
     info_uid := info_uid i; info_gid := info_gid i; info_size := info_size i;
     info_atime := info_atime i; info_mtime := info_mtime i;
     info_ctime := info_ctime i; info_inode := info_inode i;
     info_device := info_device i; info_mime_info := info_mime_info i;
     info_uri := info_uri i; info_display_name := n;
     info_hints := info_hints i; info_ref_count := info_ref_count i |}.

(** [flags & flag]: is the bit of [flag] set? *)
Definition has_flag (flags flag : Z) : bool := negb (Z.land flags flag =? 0).

(** ** libxfce4util and libexo, as the code uses them *)

(** An open rc file: the data read from the file and the current group. *)
Record XfceRc (E : Env) : Type := {
  rc_data : XfceRcData E;
  rc_group : option string
}.
Arguments rc_data {E} _.
Arguments rc_group {E} _.

Definition xfce_rc_simple_open {E} (fs : FileSystem E) (path : string)
    (readonly : bool) : option (XfceRc E) :=
  match xfce_rc_simple_open_data E fs path readonly with
  | Some d => Some {| rc_data := d; rc_group := None |}
  | None => None
  end.

Definition xfce_rc_set_group {E} (rc : XfceRc E) (group : string) : XfceRc E :=
  {| rc_data := rc_data rc; rc_group := Some group |}.

(** The value of [key] in the current group, or [fallback] (which may be
    NULL) when the group has no such key. *)
Definition xfce_rc_read_entry {E} (rc : XfceRc E) (key : string)
    (fallback : option string) : option string :=
  match xfce_rc_lookup E (rc_data rc) (rc_group rc) key true with
  | Some v => Some v
  | None => fallback
  end.

Definition xfce_rc_read_entry_untranslated {E} (rc : XfceRc E) (key : string)
    (fallback : option string) : option string :=
  match xfce_rc_lookup E (rc_data rc) (rc_group rc) key false with
  | Some v => Some v
  | None => fallback
  end.

Definition xfce_rc_read_bool_entry {E} (rc : XfceRc E) (key : string)
    (fallback : bool) : bool :=
  xfce_rc_lookup_bool E (rc_data rc) (rc_group rc) key fallback.

(** NULL-safe string comparison. *)
Definition exo_str_is_equal (a b : option string) : bool :=
  match a, b with
  | None, None => true
  | Some x, Some y => String.eqb x y
  | _, _ => false
  end.

(** ** thunar_vfs_info_new_for_uri *)

Inductive BuildResult (E : Env) : Type :=
| BuildOk (info : ThunarVfsInfo E)
| BuildError (err : GError)
| BuildNotReached.   (* g_assert_not_reached () *)
Arguments BuildOk {E} info.
Arguments BuildError {E} err.
Arguments BuildNotReached {E}.

Section Builder.
Variable E : Env.

(** Lines 127-172: the POSIX attributes, given the link-level stat. *)
Definition posix_attributes (fs : FileSystem E) (uri : ThunarVfsURI E)
    (path : string) (lsb : struct_stat) : ThunarVfsInfo E :=
  let from (ty fl : Z) (b : struct_stat) (m : Z) :=
    {| info_type := ty;
       info_mode := Z.land m 0xFFF;   (* 07777 *)
       info_flags := fl;
       info_uid := st_uid b;
       info_gid := st_gid b;
       info_size := st_size b;
       info_atime := st_atime b;
       info_mtime := st_mtime b;
       info_ctime := st_ctime b;
       info_inode := st_ino b;
       info_device := st_dev b;
       info_mime_info := 1%positive;  (* not yet assigned *)
       info_uri := uri;
       info_display_name := thunar_vfs_uri_get_display_name E uri;
       info_hints := None;
       info_ref_count := 1 |} in
  if negb (S_ISLNK (st_mode lsb)) then
    from (Z.shiftr (Z.land (st_mode lsb) S_IFMT) 12)
         THUNAR_VFS_FILE_FLAGS_NONE lsb (st_mode lsb)
  else
    match stat E fs path with
    | SysOk sb =>
        from (Z.shiftr (Z.land (st_mode sb) S_IFMT) 12)
             THUNAR_VFS_FILE_FLAGS_SYMLINK sb (st_mode sb)
    | SysErr _ =>
        from THUNAR_VFS_FILE_TYPE_SYMLINK
             THUNAR_VFS_FILE_FLAGS_SYMLINK lsb (st_mode lsb)
    end.

(** Lines 211-219: does the list hold a directly executable type? *)
Fixpoint well_known_executable (mime_infos : list ThunarVfsMimeInfo) : bool :=
  match mime_infos with
  | [] => false
  | lp :: next =>
      if String.eqb (thunar_vfs_mime_info_get_name E lp) "application/x-executable"
         || String.eqb (thunar_vfs_mime_info_get_name E lp) "application/x-shellscript"
      then true
      else well_known_executable next
  end.

(** Lines 205-221: the permission-based executability test. *)
Definition check_executable (fs : FileSystem E) (path : string)
    (info : ThunarVfsInfo E) : ThunarVfsInfo E :=
  if negb (Z.land (info_mode info) 0x124 =? 0)   (* 0444 *)
     && (g_access E fs path X_OK =? 0)
  then
    let mime_infos :=
      thunar_vfs_mime_database_get_infos_for_info E (info_mime_info info) in
    if well_known_executable mime_infos
    then set_flags info (Z.lor (info_flags info) THUNAR_VFS_FILE_FLAGS_EXECUTABLE)
    else info
  else info.

(** Lines 246-254: does the launcher refer to an application with an Exec
    field? *)
Definition desktop_is_application (rc : XfceRc E) : bool :=
  exo_str_is_equal (xfce_rc_read_entry_untranslated rc "Type" (Some "Application"))
                   (Some "Application")
  && match xfce_rc_read_entry rc "Exec" None with
     | Some _ => true
     | None => false
     end.

(** Lines 223-259: the hints of a .desktop file. *)
Definition check_desktop (fs : FileSystem E) (path : string)
    (info : ThunarVfsInfo E) : ThunarVfsInfo E :=
  if String.eqb (thunar_vfs_mime_info_get_name E (info_mime_info info))
                "application/x-desktop"
  then
    match xfce_rc_simple_open fs path true with
    | Some rc0 =>
        let rc := xfce_rc_set_group rc0 "Desktop Entry" in
        let hints0 := replicate THUNAR_VFS_FILE_N_HINTS (@None string) in
        let hints1 :=
          match xfce_rc_read_entry_untranslated rc "Icon" None with
          | Some str => <[THUNAR_VFS_FILE_HINT_ICON := Some str]> hints0
          | None => hints0
          end in
        let hints2 :=
          match xfce_rc_read_entry rc "Name" None with
          | Some str => <[THUNAR_VFS_FILE_HINT_NAME := Some str]> hints1
          | None => hints1
          end in
        let info1 := set_hints info (Some hints2) in
        if desktop_is_application rc
        then set_flags info1
               (Z.lor (info_flags info1) THUNAR_VFS_FILE_FLAGS_EXECUTABLE)
        else info1
    | None => info
    end
  else info.

(** Lines 174-265: the content type, by the switch on the file type. *)
Definition determine_mime_type (fs : FileSystem E) (path : string)
    (info : ThunarVfsInfo E) : BuildResult E :=
  let fixed name :=
    BuildOk (set_mime_info info (thunar_vfs_mime_database_get_info E name)) in
  if info_type info =? THUNAR_VFS_FILE_TYPE_SOCKET then fixed "inode/socket"
  else if info_type info =? THUNAR_VFS_FILE_TYPE_SYMLINK then fixed "inode/symlink"
  else if info_type info =? THUNAR_VFS_FILE_TYPE_BLOCKDEV then fixed "inode/blockdevice"
  else if info_type info =? THUNAR_VFS_FILE_TYPE_DIRECTORY then fixed "inode/directory"
  else if info_type info =? THUNAR_VFS_FILE_TYPE_CHARDEV then fixed "inode/chardevice"
  else if info_type info =? THUNAR_VFS_FILE_TYPE_FIFO then fixed "inode/fifo"
  else if info_type info =? THUNAR_VFS_FILE_TYPE_REGULAR then
    let info1 :=
      set_mime_info info
        (thunar_vfs_mime_database_get_info_for_file E fs path
           (info_display_name info)) in
    BuildOk (check_desktop fs path (check_executable fs path info1))
  else BuildNotReached.

Definition thunar_vfs_info_new_for_uri (fs : FileSystem E)
    (uri : ThunarVfsURI E) : BuildResult E :=
  let path := thunar_vfs_uri_get_path E uri in
  match lstat E fs path with
  | SysErr errno =>
      BuildError
        {| error_code := g_file_error_from_errno E errno;
           error_message :=
             "Failed to stat file `" +:+ path +:+ "': " +:+ g_strerror E errno |}
  | SysOk lsb =>
      determine_mime_type fs path (posix_attributes fs uri path lsb)
  end.

End Builder.

(** ** Calls that change the outside world *)

Inductive Call (E : Env) : Type :=
| CallFileSetContents (path data : string)
| CallRename (src dst : string)
| CallSpawnOnScreen (screen : GdkScreen E) (working_directory : string)
    (argv : list string).
Arguments CallFileSetContents {E} path data.
Arguments CallRename {E} src dst.
Arguments CallSpawnOnScreen {E} screen working_directory argv.

(** [strchr (s, c) != NULL] *)
Fixpoint strchr (s : string) (c : Ascii.ascii) : bool :=
  match s with
  | EmptyString => false
  | String x rest => if Ascii.eqb x c then true else strchr rest c
  end.

(** ** thunar_vfs_info_rename *)

(** What a call of rename leaves behind: the return value, the error set (if
    any), the descriptor and the file system after the call, and the calls
    issued. *)
Record RenameOutcome (E : Env) : Type := {
  rename_return : bool;
  rename_error : option GError;
  rename_info : ThunarVfsInfo E;
  rename_fs : FileSystem E;
  rename_calls : list (Call E)
}.
Arguments rename_return {E} _.
Arguments rename_error {E} _.
Arguments rename_info {E} _.
Arguments rename_fs {E} _.
Arguments rename_calls {E} _.

Section Rename.
Variable E : Env.

(** Lines 506-517: the first preferred locale whose [Name[locale]] key
    exists in the group. *)
Fixpoint localized_name_key (key_file : GKeyFile E) (locale : list string)
    : option string :=
  match locale with
  | [] => None
  | l :: rest =>
      let key := "Name[" +:+ l +:+ "]" in
      if g_key_file_has_key E key_file "Desktop Entry" key
      then Some key
      else localized_name_key key_file rest
  end.

(** Lines 506-521: the key that receives the new name. *)
Definition name_key (key_file : GKeyFile E) : string :=
  match localized_name_key key_file (g_get_language_names E) with
  | Some key => key
  | None => "Name"
  end.

Definition save_new_name (key_file : GKeyFile E) (name : string) : GKeyFile E :=
  g_key_file_set_string E key_file "Desktop Entry" (name_key key_file) name.

(** Lines 548-553: update the Name hint (if any). *)
Definition update_name_hint (info : ThunarVfsInfo E) (name : string)
    : ThunarVfsInfo E :=
  match info_hints info with
  | Some hints =>
      set_hints info (Some (<[THUNAR_VFS_FILE_HINT_NAME := Some name]> hints))
  | None => info
  end.

(** Lines 587-602: the in-memory updates after the rename call. *)
Definition update_after_rename (fs : FileSystem E) (info : ThunarVfsInfo E)
    (name dst_path : string) : ThunarVfsInfo E :=
  let info1 := set_uri info (thunar_vfs_uri_new_for_path E dst_path) in
  let info2 := set_display_name info1 name in
  if info_type info2 =? THUNAR_VFS_FILE_TYPE_REGULAR
  then set_mime_info info2
         (thunar_vfs_mime_database_get_info_for_file E fs dst_path
            (info_display_name info2))
  else info2.

(** The launcher is written back with [g_file_set_contents], the branch that
    the code compiles against GLib 2.8 or later. *)
Definition thunar_vfs_info_rename (info : ThunarVfsInfo E) (name : string)
    (fs : FileSystem E) : RenameOutcome E :=
  let failed (err : option GError) (fs' : FileSystem E) (calls : list (Call E)) :=
    {| rename_return := false; rename_error := err; rename_info := info;
       rename_fs := fs'; rename_calls := calls |} in
  if negb (0 <? info_ref_count info) then failed None fs []
  else if negb (g_utf8_validate E name) then failed None fs []
  else if String.eqb name "" || strchr name "/"%char then
    failed (Some {| error_code := G_FILE_ERROR_INVAL;
                    error_message := "Invalid file name" |}) fs []
  else
    let src_path := thunar_vfs_uri_get_path E (info_uri info) in
    if String.eqb (thunar_vfs_mime_info_get_name E (info_mime_info info))
                  "application/x-desktop"
    then
      match g_key_file_load_from_file E fs src_path with
      | inl err => failed (Some err) fs []
      | inr key_file =>
          if negb (g_key_file_has_group E key_file "Desktop Entry") then
            failed (Some {| error_code := G_FILE_ERROR_INVAL;
                            error_message := "Invalid desktop file" |}) fs []
          else
            match g_key_file_to_data E (save_new_name key_file name) with
            | inl err => failed (Some err) fs []
            | inr data =>
                let calls := [CallFileSetContents src_path data] in
                match g_file_set_contents E fs src_path data with
                | (fs', Some err) => failed (Some err) fs' calls
                | (fs', None) =>
                    {| rename_return := true; rename_error := None;
                       rename_info := update_name_hint info name;
                       rename_fs := fs'; rename_calls := calls |}
                end
            end
      end
    else
      match g_filename_from_utf8 E name with
      | inl err => failed (Some err) fs []
      | inr dst_name =>
          let dir_name := g_path_get_dirname E src_path in
          let dst_path := g_build_filename E dir_name dst_name in
          if g_file_test_exists E fs dst_path then
            failed (Some {| error_code := G_FILE_ERROR_EXIST;
                            error_message := g_strerror E EEXIST |}) fs []
          else
            let calls := [CallRename src_path dst_path] in
            match g_rename E fs src_path dst_path with
            | SysErr errno =>
                failed (Some {| error_code := g_file_error_from_errno E errno;
                                error_message := g_strerror E errno |}) fs calls
            | SysOk fs' =>
                {| rename_return := true; rename_error := None;
                   rename_info := update_after_rename fs' info name dst_path;
                   rename_fs := fs'; rename_calls := calls |}
            end
      end.

End Rename.

(** ** thunar_vfs_info_execute *)

Record ExecuteOutcome (E : Env) : Type := {
  execute_return : bool;
  execute_error : option GError;
  execute_calls : list (Call E)
}.
Arguments execute_return {E} _.
Arguments execute_error {E} _.
Arguments execute_calls {E} _.

Section Execute.
Variable E : Env.

(** Lines 369-410: the construction of the command line. *)
Definition execute_command_line (info : ThunarVfsInfo E)
    (uris : list (ThunarVfsURI E)) (fs : FileSystem E) : GError + list string :=
  let path := thunar_vfs_uri_get_path E (info_uri info) in
  if String.eqb (thunar_vfs_mime_info_get_name E (info_mime_info info))
                "application/x-desktop"
  then
    match xfce_rc_simple_open fs path true with
    | Some rc =>
        match xfce_rc_read_entry_untranslated rc "Exec" None with
        | Some exec =>
            let name := xfce_rc_read_entry rc "Name" None in
            let icon := xfce_rc_read_entry_untranslated rc "Icon" None in
            let terminal := xfce_rc_read_bool_entry rc "Terminal" false in
            _thunar_vfs_sysdep_parse_exec E exec uris icon name (Some path) terminal
        | None =>
            inl {| error_code := G_FILE_ERROR_INVAL;
                   error_message := "No Exec field specified" |}
        end
    | None =>
        inl {| error_code := G_FILE_ERROR_INVAL;
               error_message := "Unable to parse file" |}
    end
  else
    let path_escaped := g_shell_quote E path in
    let exec := path_escaped +:+ " %F" in
    _thunar_vfs_sysdep_parse_exec E exec uris None None None false.

(** Line 415: the file whose directory becomes the working directory. *)
Definition working_directory_of (uris : list (ThunarVfsURI E)) (path : string)
    : string :=
  g_path_get_dirname E
    match uris with
    | data :: _ => thunar_vfs_uri_get_path E data
    | [] => path
    end.

Definition thunar_vfs_info_execute (info : ThunarVfsInfo E)
    (screen : option (GdkScreen E)) (uris : list (ThunarVfsURI E))
    (fs : FileSystem E) : ExecuteOutcome E :=
  if negb (0 <? info_ref_count info) then
    {| execute_return := false; execute_error := None; execute_calls := [] |}
  else
    let screen :=
      match screen with
      | Some s => s
      | None => gdk_screen_get_default E
      end in
    let path := thunar_vfs_uri_get_path E (info_uri info) in
    match execute_command_line info uris fs with
    | inr argv =>
        let working_directory := working_directory_of uris path in
        let calls := [CallSpawnOnScreen screen working_directory argv] in
        match gdk_spawn_on_screen E fs screen working_directory argv with
        | None =>
            {| execute_return := true; execute_error := None;
               execute_calls := calls |}
        | Some err =>
            {| execute_return := false; execute_error := Some err;
               execute_calls := calls |}
        end
    | inl err =>
        {| execute_return := false; execute_error := Some err;
           execute_calls := [] |}
    end.

End Execute.

(** ** thunar_vfs_info_get_hint and thunar_vfs_info_matches *)

Section Accessors.
Variable E : Env.

Definition thunar_vfs_info_get_hint (info : ThunarVfsInfo E) (hint : nat)
    : option string :=
  if negb (0 <? info_ref_count info) then None
  else
    match info_hints info with
    | Some hints =>
        if (hint <? THUNAR_VFS_FILE_N_HINTS)%nat
        then mjoin (hints !! hint)
        else None
    | None => None
    end.

(** The arguments are pointers: [None] is NULL. *)
Definition thunar_vfs_info_matches (a b : option (ThunarVfsInfo E)) : bool :=
  match a, b with
  | Some a, Some b =>
      if negb (0 <? info_ref_count a) then false
      else if negb (0 <? info_ref_count b) then false
      else
        (info_type a =? info_type b)
        && (info_mode a =? info_mode b)
        && (info_flags a =? info_flags b)
        && (info_uid a =? info_uid b)
        && (info_gid a =? info_gid b)
        && (info_size a =? info_size b)
        && (info_atime a =? info_atime b)
        && (info_mtime a =? info_mtime b)
        && (info_ctime a =? info_ctime b)
        && (info_inode a =? info_inode b)
        && (info_device a =? info_device b)
        && Pos.eqb (info_mime_info a) (info_mime_info b)
        && thunar_vfs_uri_equal E (info_uri a) (info_uri b)
  | _, _ => false
  end.

End Accessors.

(** ** A small file system to run the code on

    An instance of [Env] over an in-memory file system: a list of paths with
    their stat data and text.  The rc reader and the key-file reader both
    parse the text of a node, so that a launcher rewritten by rename can be
    read back.  It is used to evaluate the operations on concrete files. *)

Module Sample.

Definition KeyFile : Type := list (string * list (string * string)).

Record node : Type := {
  n_lstat : struct_stat;          (* what lstat sees *)
  n_target : option struct_stat;  (* what a link resolves to, if it does *)
  n_x_ok : bool;                  (* access (path, X_OK) succeeds *)
  n_mime : ThunarVfsMimeInfo;     (* the type the MIME database finds *)
  n_text : option string          (* the text, when the file can be read *)
}.

Definition files : Type := list (string * node).

Fixpoint lookup_file (fs : files) (path : string) : option node :=
  match fs with
  | [] => None
  | (p, n) :: rest => if String.eqb p path then Some n else lookup_file rest path
  end.

Fixpoint update_file (fs : files) (path : string) (f : node -> node) : files :=
  match fs with
  | [] => []
  | (p, n) :: rest =>
      if String.eqb p path then (p, f n) :: rest
      else (p, n) :: update_file rest path f
  end.

Fixpoint remove_file (fs : files) (path : string) : files :=
  match fs with
  | [] => []
  | (p, n) :: rest =>
      if String.eqb p path then remove_file rest path
      else (p, n) :: remove_file rest path
  end.

Fixpoint move_file (fs : files) (src dst : string) : files :=
  match fs with
  | [] => []
  | (p, n) :: rest =>
      if String.eqb p src then (dst, n) :: rest
      else (p, n) :: move_file rest src dst
  end.

(** *** Paths *)

Fixpoint prefix_of_last_slash (s : string) : option string :=
  match s with
  | EmptyString => None
  | String c rest =>
      match prefix_of_last_slash rest with
      | Some d => Some (String c d)
      | None => if Ascii.eqb c "/" then Some EmptyString else None
      end
  end.

Definition dirname (s : string) : string :=
  match prefix_of_last_slash s with
  | None => "."
  | Some EmptyString => "/"
  | Some d => d
  end.

Fixpoint basename (s : string) : string :=
  match s with
  | EmptyString => EmptyString
  | String c rest =>
      if strchr rest "/" then basename rest
      else if Ascii.eqb c "/" then rest else s
  end.

Definition build_filename (dir name : string) : string :=
  if String.eqb dir "/" then "/" +:+ name else dir +:+ "/" +:+ name.

(** *** The grouped key=value text *)

Definition newline : Ascii.ascii := Ascii.ascii_of_nat 10.

Fixpoint lines (s : string) : list string :=
  match s with
  | EmptyString => [EmptyString]
  | String c rest =>
      if Ascii.eqb c newline then EmptyString :: lines rest
      else match lines rest with
           | l :: ls => String c l :: ls
           | [] => [String c EmptyString]
           end
  end.

Fixpoint split_at (sep : Ascii.ascii) (s : string) : option (string * string) :=
  match s with
  | EmptyString => None
  | String c rest =>
      if Ascii.eqb c sep then Some (EmptyString, rest)
      else match split_at sep rest with
           | Some (k, v) => Some (String c k, v)
           | None => None
           end
  end.

Fixpoint assoc {A} (l : list (string * A)) (k : string) : option A :=
  match l with
  | [] => None
  | (k', v) :: rest => if String.eqb k' k then Some v else assoc rest k
  end.

Fixpoint assoc_set {A} (l : list (string * A)) (k : string) (v : A)
    : list (string * A) :=
  match l with
  | [] => [(k, v)]
  | (k', v') :: rest =>
      if String.eqb k' k then (k, v) :: rest else (k', v') :: assoc_set rest k v
  end.

Definition has_group (kf : KeyFile) (group : string) : bool :=
  match assoc kf group with Some _ => true | None => false end.

Definition get_string (kf : KeyFile) (group key : string) : option string :=
  match assoc kf group with
  | Some entries => assoc entries key
  | None => None
  end.

Definition has_key (kf : KeyFile) (group key : string) : bool :=
  match get_string kf group key with Some _ => true | None => false end.

Definition set_string (kf : KeyFile) (group key value : string) : KeyFile :=
  match assoc kf group with
  | Some entries => assoc_set kf group (assoc_set entries key value)
  | None => assoc_set kf group [(key, value)]
  end.

Fixpoint parse_lines (ls : list string) (group : string) (kf : KeyFile)
    : KeyFile :=
  match ls with
  | [] => kf
  | String "[" header :: rest =>
      match split_at "]" header with
      | Some (g, _) =>
          parse_lines rest g
            (if has_group kf g then kf else assoc_set kf g [])
      | None => parse_lines rest group kf
      end
  | l :: rest =>
      match split_at "=" l with
      | Some (k, v) => parse_lines rest group (set_string kf group k v)
      | None => parse_lines rest group kf
      end
  end.

Definition parse (text : string) : KeyFile := parse_lines (lines text) "" [].

Definition to_data (kf : KeyFile) : string :=
  String.concat ""
    (map (fun g : string * list (string * string) =>
            "[" +:+ fst g +:+ "]" +:+ String newline "" +:+
            String.concat ""
              (map (fun e : string * string =>
                      fst e +:+ "=" +:+ snd e +:+ String newline "")
                   (snd g)))
         kf).

(** *** The MIME database *)

Definition octet_stream : ThunarVfsMimeInfo := 1%positive.
Definition x_executable : ThunarVfsMimeInfo := 2%positive.
Definition x_shellscript : ThunarVfsMimeInfo := 3%positive.
Definition x_desktop : ThunarVfsMimeInfo := 4%positive.
Definition text_plain : ThunarVfsMimeInfo := 5%positive.
Definition x_perl : ThunarVfsMimeInfo := 6%positive.
Definition inode_directory : ThunarVfsMimeInfo := 7%positive.
Definition inode_symlink : ThunarVfsMimeInfo := 8%positive.
Definition inode_other : ThunarVfsMimeInfo := 9%positive.

Definition mime_name (m : ThunarVfsMimeInfo) : string :=
  match m with
  | 2%positive => "application/x-executable"
  | 3%positive => "application/x-shellscript"
  | 4%positive => "application/x-desktop"
  | 5%positive => "text/plain"
  | 6%positive => "application/x-perl"
  | 7%positive => "inode/directory"
  | 8%positive => "inode/symlink"
  | 9%positive => "inode/other"
  | _ => "application/octet-stream"
  end.

Definition mime_by_name (name : string) : ThunarVfsMimeInfo :=
  if String.eqb name "inode/directory" then inode_directory
  else if String.eqb name "inode/symlink" then inode_symlink
  else inode_other.

(** A type followed by the types it is a subclass of. *)
Definition mime_related (m : ThunarVfsMimeInfo) : list ThunarVfsMimeInfo :=
  match m with
  | 2%positive => [x_executable; octet_stream]
  | 3%positive => [x_shellscript; x_executable; text_plain; octet_stream]
  | 4%positive => [x_desktop; text_plain; octet_stream]
  | 5%positive => [text_plain; octet_stream]
  | 6%positive => [x_perl; x_executable; text_plain; octet_stream]
  | _ => [m]
  end.

(** *** The rc reader *)

Definition locales : list string := ["de_DE"; "de"; "C"].

Fixpoint lookup_translated (entries : list (string * string)) (key : string)
    (ls : list string) : option string :=
  match ls with
  | [] => assoc entries key
  | l :: rest =>
      match assoc entries (key +:+ "[" +:+ l +:+ "]") with
      | Some v => Some v
      | None => lookup_translated entries key rest
      end
  end.

Definition rc_lookup (kf : KeyFile) (group : option string) (key : string)
    (translated : bool) : option string :=
  match assoc kf (default "" group) with
  | Some entries =>
      if translated then lookup_translated entries key locales
      else assoc entries key
  | None => None
  end.

Definition rc_lookup_bool (kf : KeyFile) (group : option string)
    (key : string) (fallback : bool) : bool :=
  match rc_lookup kf group key true with
  | Some v => String.eqb v "true"
  | None => fallback
  end.

Definition text_of (fs : files) (path : string) : option string :=
  match lookup_file fs path with
  | Some n => n_text n
  | None => None
  end.

(** *** The instance *)

Definition ENOENT : Z := 2.

Definition no_such_file : GError :=
  {| error_code := G_ERROR_OTHER "g-file-error" 4;
     error_message := "No such file or directory" |}.

Definition env : Env := {|
  ThunarVfsURI := string;
  FileSystem := files;
  GdkScreen := nat;
  XfceRcData := KeyFile;
  GKeyFile := KeyFile;
  thunar_vfs_uri_get_path := fun u => u;
  thunar_vfs_uri_get_display_name := basename;
  thunar_vfs_uri_equal := String.eqb;
  thunar_vfs_uri_new_for_path := fun p => p;
  thunar_vfs_mime_database_get_info := mime_by_name;
  thunar_vfs_mime_database_get_info_for_file := fun fs path _ =>
    match lookup_file fs path with
    | Some n => n_mime n
    | None => octet_stream
    end;
  thunar_vfs_mime_database_get_infos_for_info := mime_related;
  thunar_vfs_mime_info_get_name := mime_name;
  _thunar_vfs_sysdep_parse_exec := fun exec uris _ _ _ _ =>
    match split_at " " exec with
    | Some (program, _) => inr (program :: uris)
    | None => inr (exec :: uris)
    end;
  lstat := fun fs path =>
    match lookup_file fs path with
    | Some n => SysOk (n_lstat n)
    | None => SysErr ENOENT
    end;
  stat := fun fs path =>
    match lookup_file fs path with
    | Some n =>
        if S_ISLNK (st_mode (n_lstat n)) then
          match n_target n with
          | Some sb => SysOk sb
          | None => SysErr ENOENT
          end
        else SysOk (n_lstat n)
    | None => SysErr ENOENT
    end;
  g_access := fun fs path _ =>
    match lookup_file fs path with
    | Some n => if n_x_ok n then 0 else -1
    | None => -1
    end;
  g_rename := fun fs src dst =>
    match lookup_file fs src with
    | Some _ => SysOk (move_file (remove_file fs dst) src dst)
    | None => SysErr ENOENT
    end;
  xfce_rc_simple_open_data := fun fs path _ => parse <$> text_of fs path;
  xfce_rc_lookup := rc_lookup;
  xfce_rc_lookup_bool := rc_lookup_bool;
  g_file_error_from_errno := fun errno =>
    if errno =? EEXIST then G_FILE_ERROR_EXIST
    else if errno =? 22 then G_FILE_ERROR_INVAL
    else G_ERROR_OTHER "g-file-error" errno;
  g_strerror := fun errno =>
    if errno =? EEXIST then "File exists"
    else if errno =? ENOENT then "No such file or directory"
    else "Unknown error";
  g_utf8_validate := fun _ => true;
  g_get_language_names := locales;
  g_shell_quote := fun s => "'" +:+ s +:+ "'";
  g_path_get_dirname := dirname;
  g_build_filename := build_filename;
  g_filename_from_utf8 := fun name => inr name;
  g_file_test_exists := fun fs path =>
    (* G_FILE_TEST_EXISTS follows symbolic links *)
    match lookup_file fs path with
    | Some n =>
        if S_ISLNK (st_mode (n_lstat n)) then
          match n_target n with Some _ => true | None => false end
        else true
    | None => false
    end;
  g_file_set_contents := fun fs path data =>
    match lookup_file fs path with
    | Some _ =>
        (update_file fs path
           (fun n => {| n_lstat := n_lstat n; n_target := n_target n;
                        n_x_ok := n_x_ok n; n_mime := n_mime n;
                        n_text := Some data |}),
         None)
    | None => (fs, Some no_such_file)
    end;
  g_key_file_load_from_file := fun fs path =>
    match text_of fs path with
    | Some text => inr (parse text)
    | None => inl no_such_file
    end;
  g_key_file_has_group := has_group;
  g_key_file_has_key := has_key;
  g_key_file_set_string := set_string;
  g_key_file_to_data := fun kf => inr (to_data kf);
  gdk_screen_get_default := 0%nat;
  gdk_spawn_on_screen := fun _ _ _ _ => None
|}.

(** *** Some files *)

Definition mk_stat (mode size ino : Z) : struct_stat :=
  {| st_mode := mode; st_uid := 1000; st_gid := 100; st_size := size;
     st_atime := 1130000000; st_ctime := 1130000001; st_mtime := 1130000002;
     st_ino := ino; st_dev := 770 |}.

Definition plain (mode size ino : Z) (x_ok : bool) (mime : ThunarVfsMimeInfo)
    (text : option string) : node :=
  {| n_lstat := mk_stat mode size ino; n_target := None; n_x_ok := x_ok;
     n_mime := mime; n_text := text |}.

Definition nl : string := String newline "".

Definition editor_text : string :=
  "[Desktop Entry]" +:+ nl +:+
  "Name=Editor" +:+ nl +:+
  "Name[de]=Texteditor" +:+ nl +:+
  "Icon=accessories-text-editor" +:+ nl +:+
  "Exec=mousepad %F" +:+ nl.

Definition empty_exec_text : string :=
  "[Desktop Entry]" +:+ nl +:+
  "Name=Nothing" +:+ nl +:+
  "Type=Application" +:+ nl +:+
  "Exec=" +:+ nl.

Definition link_text : string :=
  "[Desktop Entry]" +:+ nl +:+
  "Name=Home page" +:+ nl +:+
  "Type=Link" +:+ nl +:+
  "URL=http://www.xfce.org" +:+ nl.

Definition disk : files := [
  ("/home/u", plain 0x41ED 4096 10 true inode_directory None);
  ("/home/u/run.sh", plain 0x81ED 120 11 true x_shellscript (Some "#!/bin/sh"));
  ("/home/u/notes.txt", plain 0x81ED 64 12 true text_plain (Some "notes"));
  ("/home/u/tool", plain 0x81A4 9000 13 false x_executable None);
  ("/home/u/editor.desktop",
     plain 0x8180 110 14 false x_desktop (Some editor_text));
  ("/home/u/empty.desktop",
     plain 0x8180 60 15 false x_desktop (Some empty_exec_text));
  ("/home/u/link.desktop",
     plain 0x81A4 70 16 false x_desktop (Some link_text));
  ("/home/u/locked.desktop", plain 0x8000 50 17 false x_desktop None);
  ("/home/u/dangling",
     {| n_lstat := mk_stat 0xA1FF 7 18; n_target := None; n_x_ok := false;
        n_mime := octet_stream; n_text := None |});
  ("/home/u/shortcut",
     {| n_lstat := mk_stat 0xA1FF 6 19;
        n_target := Some (mk_stat 0x81ED 120 11); n_x_ok := true;
        n_mime := x_shellscript; n_text := Some "#!/bin/sh" |})
].

End Sample.

(** * The vocabulary of the properties *)

(** The owner, group and other read-permission bits are the bits 8, 5 and 2
    of the mode; 0444 selects exactly these. *)
Definition some_read_bit (mode : Z) : Prop :=
  Z.testbit mode 8 = true \/ Z.testbit mode 5 = true \/ Z.testbit mode 2 = true.

(** The resolver's enumeration for [m] holds a type named as one of the two
    directly executable types. *)
Definition directly_executable (E : Env) (m : ThunarVfsMimeInfo) : Prop :=
  exists m',
    In m' (thunar_vfs_mime_database_get_infos_for_info E m)
    /\ (thunar_vfs_mime_info_get_name E m' = "application/x-executable"
        \/ thunar_vfs_mime_info_get_name E m' = "application/x-shellscript").

(** Some read bit is set in the mode and the path passes the OS check for
    execute access. *)
Definition permitted (E : Env) (fs : FileSystem E) (path : string) (mode : Z) : Prop :=
  some_read_bit mode /\ g_access E fs path X_OK = 0.

(** The launcher's entry has no Type key, or the Type "Application", and
    has an Exec key. *)
Definition launcher_application (E : Env) (data : XfceRcData E) : Prop :=
  (xfce_rc_lookup E data (Some "Desktop Entry") "Type" false = None
   \/ xfce_rc_lookup E data (Some "Desktop Entry") "Type" false
      = Some "Application")
  /\ exists exec,
       xfce_rc_lookup E data (Some "Desktop Entry") "Exec" true = Some exec.

(** The same, with an Exec key whose value is not the empty string. *)
Definition launcher_application_nonempty (E : Env) (data : XfceRcData E) : Prop :=
  (xfce_rc_lookup E data (Some "Desktop Entry") "Type" false = None
   \/ xfce_rc_lookup E data (Some "Desktop Entry") "Type" false
      = Some "Application")
  /\ exists exec,
       xfce_rc_lookup E data (Some "Desktop Entry") "Exec" true = Some exec
       /\ exec <> "".

(** The reading of C3 for one location: a readable launcher is flagged
    executable exactly when its Type key is absent or "Application" and it has
    an Exec key with a non-empty value. *)
Definition launcher_claim (E : Env) (fs : FileSystem E) (uri : ThunarVfsURI E)
    : Prop :=
  forall info rc,
    thunar_vfs_info_new_for_uri E fs uri = BuildOk info ->
    info_type info = THUNAR_VFS_FILE_TYPE_REGULAR ->
    thunar_vfs_mime_info_get_name E (info_mime_info info)
    = "application/x-desktop" ->
    xfce_rc_simple_open fs (thunar_vfs_uri_get_path E uri) true = Some rc ->
    (has_flag (info_flags info) THUNAR_VFS_FILE_FLAGS_EXECUTABLE = true
     <-> launcher_application_nonempty E (rc_data rc)).

(** The thirteen attributes that [thunar_vfs_info_matches] compares. *)
Definition attributes_compared {E : Env} (a b : ThunarVfsInfo E) : Prop :=
  info_type a = info_type b
  /\ info_mode a = info_mode b
  /\ info_flags a = info_flags b
  /\ info_uid a = info_uid b
  /\ info_gid a = info_gid b
  /\ info_size a = info_size b
  /\ info_atime a = info_atime b
  /\ info_mtime a = info_mtime b
  /\ info_ctime a = info_ctime b
  /\ info_inode a = info_inode b
  /\ info_device a = info_device b
  /\ info_mime_info a = info_mime_info b
  /\ thunar_vfs_uri_equal E (info_uri a) (info_uri b) = true.

(** Every attribute of the record: the thirteen above, the display name and
    the hints. *)
Definition all_attributes_match {E : Env} (a b : ThunarVfsInfo E) : Prop :=
  attributes_compared a b
  /\ info_display_name a = info_display_name b
  /\ info_hints a = info_hints b.

(** One of the thirteen compared attributes differs. *)
Definition some_attribute_differs {E : Env} (a b : ThunarVfsInfo E) : Prop :=
  info_type a <> info_type b
  \/ info_mode a <> info_mode b
  \/ info_flags a <> info_flags b
  \/ info_uid a <> info_uid b
  \/ info_gid a <> info_gid b
  \/ info_size a <> info_size b
  \/ info_atime a <> info_atime b
  \/ info_mtime a <> info_mtime b
  \/ info_ctime a <> info_ctime b
  \/ info_inode a <> info_inode b
  \/ info_device a <> info_device b
  \/ info_mime_info a <> info_mime_info b
  \/ thunar_vfs_uri_equal E (info_uri a) (info_uri b) = false.

(** The reading of C4 for two descriptors: they match exactly when every
    attribute of the record agrees. *)
Definition matches_claim {E : Env} (a b : ThunarVfsInfo E) : Prop :=
  0 < info_ref_count a ->
  0 < info_ref_count b ->
  (thunar_vfs_info_matches E (Some a) (Some b) = true
   <-> all_attributes_match a b).

(** The name passes the validation of lines 477-482. *)
Definition valid_name (name : string) : Prop :=
  name <> "" /\ strchr name "/" = false.

(** The ways in which rename fails once its arguments pass the entry checks,
    in the order of the code. *)
Inductive rename_failure (E : Env) (info : ThunarVfsInfo E) (name : string)
    (fs : FileSystem E) : Prop :=
| invalid_name :
    ~ valid_name name -> rename_failure E info name fs
| launcher_unreadable err :
    valid_name name ->
    thunar_vfs_mime_info_get_name E (info_mime_info info)
    = "application/x-desktop" ->
    g_key_file_load_from_file E fs (thunar_vfs_uri_get_path E (info_uri info))
    = inl err ->
    rename_failure E info name fs
| launcher_without_group key_file :
    valid_name name ->
    thunar_vfs_mime_info_get_name E (info_mime_info info)
    = "application/x-desktop" ->
    g_key_file_load_from_file E fs (thunar_vfs_uri_get_path E (info_uri info))
    = inr key_file ->
    g_key_file_has_group E key_file "Desktop Entry" = false ->
    rename_failure E info name fs
| serialization_failure key_file err :
    valid_name name ->
    thunar_vfs_mime_info_get_name E (info_mime_info info)
    = "application/x-desktop" ->
    g_key_file_load_from_file E fs (thunar_vfs_uri_get_path E (info_uri info))
    = inr key_file ->
    g_key_file_has_group E key_file "Desktop Entry" = true ->
    g_key_file_to_data E (save_new_name E key_file name) = inl err ->
    rename_failure E info name fs
| write_failure key_file data fs' err :
    valid_name name ->
    thunar_vfs_mime_info_get_name E (info_mime_info info)
    = "application/x-desktop" ->
    g_key_file_load_from_file E fs (thunar_vfs_uri_get_path E (info_uri info))
    = inr key_file ->
    g_key_file_has_group E key_file "Desktop Entry" = true ->
    g_key_file_to_data E (save_new_name E key_file name) = inr data ->
    g_file_set_contents E fs (thunar_vfs_uri_get_path E (info_uri info)) data
    = (fs', Some err) ->
    rename_failure E info name fs
| encoding_failure err :
    valid_name name ->
    thunar_vfs_mime_info_get_name E (info_mime_info info)
    <> "application/x-desktop" ->
    g_filename_from_utf8 E name = inl err ->
    rename_failure E info name fs
| destination_collision dst_name :
    valid_name name ->
    thunar_vfs_mime_info_get_name E (info_mime_info info)
    <> "application/x-desktop" ->
    g_filename_from_utf8 E name = inr dst_name ->
    g_file_test_exists E fs
      (g_build_filename E
         (g_path_get_dirname E (thunar_vfs_uri_get_path E (info_uri info)))
         dst_name) = true ->
    rename_failure E info name fs
| rename_call_failure dst_name errno :
    valid_name name ->
    thunar_vfs_mime_info_get_name E (info_mime_info info)
    <> "application/x-desktop" ->
    g_filename_from_utf8 E name = inr dst_name ->
    g_file_test_exists E fs
      (g_build_filename E
         (g_path_get_dirname E (thunar_vfs_uri_get_path E (info_uri info)))
         dst_name) = false ->
    g_rename E fs (thunar_vfs_uri_get_path E (info_uri info))
      (g_build_filename E
         (g_path_get_dirname E (thunar_vfs_uri_get_path E (info_uri info)))
         dst_name) = SysErr errno ->
    rename_failure E info name fs.

(** The descriptors obtained from [start] by any number of rename calls, each
    on any name and on any state of the file system. *)
Inductive renamed_from {E : Env} (start : ThunarVfsInfo E)
    : ThunarVfsInfo E -> Prop :=
| renamed_none : renamed_from start start
| renamed_again info name fs :
    renamed_from start info ->
    renamed_from start (rename_info (thunar_vfs_info_rename E info name fs)).

(** The content type that the switch of the builder assigns to a file type
    without looking at the file: the six cases before the regular one. *)
Definition fixed_mime_name (ty : Z) : option string :=
  if ty =? THUNAR_VFS_FILE_TYPE_SOCKET then Some "inode/socket"
  else if ty =? THUNAR_VFS_FILE_TYPE_SYMLINK then Some "inode/symlink"
  else if ty =? THUNAR_VFS_FILE_TYPE_BLOCKDEV then Some "inode/blockdevice"
  else if ty =? THUNAR_VFS_FILE_TYPE_DIRECTORY then Some "inode/directory"
  else if ty =? THUNAR_VFS_FILE_TYPE_CHARDEV then Some "inode/chardevice"
  else if ty =? THUNAR_VFS_FILE_TYPE_FIFO then Some "inode/fifo"
  else None.

(** The file types that the switch of the builder has a case for. *)
Definition recognized_types : list Z :=
  [THUNAR_VFS_FILE_TYPE_SOCKET; THUNAR_VFS_FILE_TYPE_SYMLINK;
   THUNAR_VFS_FILE_TYPE_BLOCKDEV; THUNAR_VFS_FILE_TYPE_DIRECTORY;
   THUNAR_VFS_FILE_TYPE_CHARDEV; THUNAR_VFS_FILE_TYPE_FIFO;
   THUNAR_VFS_FILE_TYPE_REGULAR].

(** The descriptor carries the attributes of the stat buffer [b]. *)
Definition attributes_of {E : Env} (info : ThunarVfsInfo E) (b : struct_stat)
    : Prop :=
  info_mode info = Z.land (st_mode b) 0xFFF
  /\ info_uid info = st_uid b
  /\ info_gid info = st_gid b
  /\ info_size info = st_size b
  /\ info_atime info = st_atime b
  /\ info_ctime info = st_ctime b
  /\ info_mtime info = st_mtime b
  /\ info_inode info = st_ino b
  /\ info_device info = st_dev b.

(** Two descriptors carry the same POSIX attributes, flags and reference
    count. *)
Definition attributes_kept {E : Env} (a b : ThunarVfsInfo E) : Prop :=
  info_type a = info_type b
  /\ info_mode a = info_mode b
  /\ info_flags a = info_flags b
  /\ info_uid a = info_uid b
  /\ info_gid a = info_gid b
  /\ info_size a = info_size b
  /\ info_atime a = info_atime b
  /\ info_mtime a = info_mtime b
  /\ info_ctime a = info_ctime b
  /\ info_inode a = info_inode b
  /\ info_device a = info_device b
  /\ info_ref_count a = info_ref_count b.

(** ** Descriptors of the sample disk *)

Definition run_sh_info : ThunarVfsInfo Sample.env :=
  {| info_type := 8; info_mode := 0x1ED; info_flags := 2;
     info_uid := 1000; info_gid := 100; info_size := 120;
     info_atime := 1130000000; info_mtime := 1130000002;
     info_ctime := 1130000001; info_inode := 11; info_device := 770;
     info_mime_info := Sample.x_shellscript;
     info_uri := "/home/u/run.sh" : ThunarVfsURI Sample.env;
     info_display_name := "run.sh";
     info_hints := None; info_ref_count := 1 |}.

Definition notes_info : ThunarVfsInfo Sample.env :=
  {| info_type := 8; info_mode := 0x1ED; info_flags := 0;
     info_uid := 1000; info_gid := 100; info_size := 64;
     info_atime := 1130000000; info_mtime := 1130000002;
     info_ctime := 1130000001; info_inode := 12; info_device := 770;
     info_mime_info := Sample.text_plain;
     info_uri := "/home/u/notes.txt" : ThunarVfsURI Sample.env;
     info_display_name := "notes.txt";
     info_hints := None; info_ref_count := 1 |}.

(** The launcher of the sample disk, and the same descriptor after its
    display name was changed through rename: the file is rewritten, but no
    compared attribute of the descriptor changes. *)
Definition editor_info : ThunarVfsInfo Sample.env :=
  {| info_type := 8; info_mode := 0x180; info_flags := 2;
     info_uid := 1000; info_gid := 100; info_size := 110;
     info_atime := 1130000000; info_mtime := 1130000002;
     info_ctime := 1130000001; info_inode := 14; info_device := 770;
     info_mime_info := Sample.x_desktop;
     info_uri := "/home/u/editor.desktop" : ThunarVfsURI Sample.env;
     info_display_name := "editor.desktop";
     info_hints := Some [Some "accessories-text-editor"; Some "Texteditor"];
     info_ref_count := 1 |}.

Definition editor_renamed : ThunarVfsInfo Sample.env :=
  rename_info (thunar_vfs_info_rename Sample.env editor_info "Schreiber" Sample.disk).

(** A launcher of type "Link", without an Exec entry, and a launcher that
    cannot be read. *)
Definition link_info : ThunarVfsInfo Sample.env :=
  {| info_type := 8; info_mode := 0x1A4; info_flags := 0;
     info_uid := 1000; info_gid := 100; info_size := 70;
     info_atime := 1130000000; info_mtime := 1130000002;
     info_ctime := 1130000001; info_inode := 16; info_device := 770;
     info_mime_info := Sample.x_desktop;
     info_uri := "/home/u/link.desktop" : ThunarVfsURI Sample.env;
     info_display_name := "link.desktop";
     info_hints := Some [None; Some "Home page"];
     info_ref_count := 1 |}.

Definition locked_info : ThunarVfsInfo Sample.env :=
  {| info_type := 8; info_mode := 0; info_flags := 0;
     info_uid := 1000; info_gid := 100; info_size := 50;
     info_atime := 1130000000; info_mtime := 1130000002;
     info_ctime := 1130000001; info_inode := 17; info_device := 770;
     info_mime_info := Sample.x_desktop;
     info_uri := "/home/u/locked.desktop" : ThunarVfsURI Sample.env;
     info_display_name := "locked.desktop";
     info_hints := None;
     info_ref_count := 1 |}.

(** * Properties *)

(** ** Bit masks *)

Lemma testbit_above (mask k n : Z) :
  0 <= mask < 2 ^ k -> k <= n -> Z.testbit mask n = false.
Proof.
  intros [Hlo Hhi] Hn.
  destruct (Z.eq_dec mask 0) as [-> | Hnz].
  - apply Z.bits_0.
  - apply Z.bits_above_log2; [lia |].
    assert (Z.log2 mask < k) by (apply Z.log2_lt_pow2; lia).
    lia.
Qed.

(** A mask selects no bit of [m] exactly when every bit of the mask is clear
    in [m]. *)
Lemma land_eq_0_bits (m mask k : Z) :
  0 <= mask < 2 ^ k ->
  Z.land m mask = 0 <->
  (forall i, 0 <= i < k -> Z.testbit mask i = true -> Z.testbit m i = false).
Proof.
  intros Hmask; split.
  - intros H0 i _ Hi.
    assert (Hb : Z.testbit (Z.land m mask) i = false) by (rewrite H0; apply Z.bits_0).
    rewrite Z.land_spec, Hi, andb_true_r in Hb. exact Hb.
  - intros Hbits. apply Z.bits_inj'. intros n Hn.
    rewrite Z.land_spec, Z.bits_0.
    destruct (Z_lt_dec n k) as [Hlt | Hge].
    + destruct (Z.testbit mask n) eqn:Hm.
      * rewrite (Hbits n); [reflexivity | lia | exact Hm].
      * apply andb_false_r.
    + rewrite (testbit_above mask k n Hmask); [apply andb_false_r | lia].
Qed.

Lemma has_flag_executable (f : Z) :
  has_flag f THUNAR_VFS_FILE_FLAGS_EXECUTABLE = Z.testbit f 1.
Proof.
  unfold has_flag, THUNAR_VFS_FILE_FLAGS_EXECUTABLE.
  change (Z.shiftl 1 1) with 2.
  destruct (Z.testbit f 1) eqn:Hb.
  - destruct (Z.eqb_spec (Z.land f 2) 0) as [H0 | _]; [| reflexivity].
    apply (proj1 (land_eq_0_bits f 2 2 ltac:(lia))) with (i := 1) in H0;
      [| lia | reflexivity].
    rewrite H0 in Hb; discriminate.
  - destruct (Z.eqb_spec (Z.land f 2) 0) as [_ | Hn]; [reflexivity |].
    exfalso; apply Hn. apply (land_eq_0_bits f 2 2); [lia |].
    intros i Hi Hm.
    assert (Hcases : i = 0 \/ i = 1) by lia.
    destruct Hcases as [-> | ->]; [discriminate Hm | exact Hb].
Qed.

Lemma has_flag_symlink (f : Z) :
  has_flag f THUNAR_VFS_FILE_FLAGS_SYMLINK = Z.testbit f 0.
Proof.
  unfold has_flag, THUNAR_VFS_FILE_FLAGS_SYMLINK.
  change (Z.shiftl 1 0) with 1.
  destruct (Z.testbit f 0) eqn:Hb.
  - destruct (Z.eqb_spec (Z.land f 1) 0) as [H0 | _]; [| reflexivity].
    apply (proj1 (land_eq_0_bits f 1 1 ltac:(lia))) with (i := 0) in H0;
      [| lia | reflexivity].
    rewrite H0 in Hb; discriminate.
  - destruct (Z.eqb_spec (Z.land f 1) 0) as [_ | Hn]; [reflexivity |].
    exfalso; apply Hn. apply (land_eq_0_bits f 1 1); [lia |].
    intros i Hi Hm.
    assert (i = 0) as -> by lia. exact Hb.
Qed.

Lemma has_flag_set_executable (f : Z) :
  has_flag (Z.lor f THUNAR_VFS_FILE_FLAGS_EXECUTABLE)
           THUNAR_VFS_FILE_FLAGS_EXECUTABLE = true.
Proof.
  rewrite has_flag_executable, Z.lor_spec. apply orb_true_r.
Qed.

Lemma has_flag_symlink_kept (f : Z) :
  has_flag (Z.lor f THUNAR_VFS_FILE_FLAGS_EXECUTABLE)
           THUNAR_VFS_FILE_FLAGS_SYMLINK
  = has_flag f THUNAR_VFS_FILE_FLAGS_SYMLINK.
Proof.
  rewrite !has_flag_symlink, Z.lor_spec. apply orb_false_r.
Qed.

Lemma read_mask_spec (mode : Z) :
  negb (Z.land mode 0x124 =? 0) = true <-> some_read_bit mode.
Proof.
  unfold some_read_bit.
  rewrite negb_true_iff, Z.eqb_neq.
  split.
  - intros Hn.
    destruct (Z.testbit mode 8) eqn:H8; [left; reflexivity |].
    destruct (Z.testbit mode 5) eqn:H5; [right; left; reflexivity |].
    destruct (Z.testbit mode 2) eqn:H2; [right; right; reflexivity |].
    exfalso; apply Hn. apply (land_eq_0_bits mode 0x124 9); [lia |].
    intros i Hi Hm.
    assert (Hcases : i = 0 \/ i = 1 \/ i = 2 \/ i = 3 \/ i = 4 \/ i = 5
                     \/ i = 6 \/ i = 7 \/ i = 8) by lia.
    destruct Hcases as [-> | [-> | [-> | [-> | [-> | [-> | [-> | [-> | ->]]]]]]]];
      first [discriminate Hm | assumption].
  - intros Hbit H0.
    pose proof (proj1 (land_eq_0_bits mode 0x124 9 ltac:(lia)) H0) as Hb.
    destruct Hbit as [H | [H | H]].
    + rewrite (Hb 8) in H; [discriminate | lia | reflexivity].
    + rewrite (Hb 5) in H; [discriminate | lia | reflexivity].
    + rewrite (Hb 2) in H; [discriminate | lia | reflexivity].
Qed.

(** ** The builder *)

Section BuilderFacts.
Variable E : Env.

Lemma well_known_executable_spec (l : list ThunarVfsMimeInfo) :
  well_known_executable E l = true <->
  exists m',
    In m' l
    /\ (thunar_vfs_mime_info_get_name E m' = "application/x-executable"
        \/ thunar_vfs_mime_info_get_name E m' = "application/x-shellscript").
Proof.
  induction l as [| m l IH]; simpl.
  - split; [discriminate | intros (m' & [] & _)].
  - destruct (String.eqb_spec (thunar_vfs_mime_info_get_name E m)
                "application/x-executable") as [He | He]; simpl.
    + split; [intros _; exists m; auto | reflexivity].
    + destruct (String.eqb_spec (thunar_vfs_mime_info_get_name E m)
                  "application/x-shellscript") as [Hs | Hs].
      * split; [intros _; exists m; auto | reflexivity].
      * rewrite IH. split.
        -- intros (m' & Hin & Hname); exists m'; auto.
        -- intros (m' & [-> | Hin] & Hname).
           ++ destruct Hname; contradiction.
           ++ exists m'; auto.
Qed.

Lemma desktop_is_application_spec (rc : XfceRc E) :
  desktop_is_application E (xfce_rc_set_group rc "Desktop Entry") = true
  <-> launcher_application E (rc_data rc).
Proof.
  unfold desktop_is_application, launcher_application,
    xfce_rc_read_entry_untranslated, xfce_rc_read_entry, xfce_rc_set_group.
  simpl.
  destruct (xfce_rc_lookup E (rc_data rc) (Some "Desktop Entry") "Type" false)
    as [ty |] eqn:Hty;
    destruct (xfce_rc_lookup E (rc_data rc) (Some "Desktop Entry") "Exec" true)
    as [ex |] eqn:Hex; simpl.
  - destruct (String.eqb_spec ty "Application") as [-> | Hne]; simpl.
    + split; [intros _; split; [right; reflexivity | exists ex; reflexivity]
             | reflexivity].
    + split; [discriminate |].
      intros [[Hnone | Hsome] _]; [discriminate | congruence].
  - rewrite andb_false_r. split; [discriminate |].
    intros [_ [exec Hexec]]; discriminate.
  - split; [intros _; split; [left; reflexivity | exists ex; reflexivity]
           | reflexivity].
  - split; [discriminate |].
    intros [_ [exec Hexec]]; discriminate.
Qed.

(** *** What each step changes *)

Lemma check_executable_flags (fs : FileSystem E) (path : string)
    (info : ThunarVfsInfo E) :
  has_flag (info_flags (check_executable E fs path info))
           THUNAR_VFS_FILE_FLAGS_EXECUTABLE = true
  <-> has_flag (info_flags info) THUNAR_VFS_FILE_FLAGS_EXECUTABLE = true
      \/ (permitted E fs path (info_mode info)
          /\ directly_executable E (info_mime_info info)).
Proof.
  unfold check_executable, permitted, directly_executable.
  rewrite <- well_known_executable_spec, <- read_mask_spec, <- Z.eqb_eq.
  destruct (negb (Z.land (info_mode info) 0x124 =? 0)); simpl;
    [destruct (g_access E fs path X_OK =? 0); simpl;
     [destruct (well_known_executable E _); simpl |] |].
  - rewrite has_flag_set_executable. split; auto.
  - split; [auto | intros [H | (_ & H)]; [exact H | discriminate]].
  - split; [auto | intros [H | ((_ & H) & _)]; [exact H | discriminate]].
  - split; [auto | intros [H | ((H & _) & _)]; [exact H | discriminate]].
Qed.

Lemma check_executable_other (fs : FileSystem E) (path : string)
    (info : ThunarVfsInfo E) :
  let info' := check_executable E fs path info in
  info_type info' = info_type info
  /\ info_mode info' = info_mode info
  /\ info_mime_info info' = info_mime_info info
  /\ info_hints info' = info_hints info
  /\ has_flag (info_flags info') THUNAR_VFS_FILE_FLAGS_SYMLINK
     = has_flag (info_flags info) THUNAR_VFS_FILE_FLAGS_SYMLINK.
Proof.
  unfold check_executable.
  destruct (negb (Z.land (info_mode info) 0x124 =? 0)
            && (g_access E fs path X_OK =? 0)); simpl; [| tauto].
  destruct (well_known_executable E _); simpl; [| tauto].
  rewrite has_flag_symlink_kept. tauto.
Qed.

Lemma check_desktop_flags (fs : FileSystem E) (path : string)
    (info : ThunarVfsInfo E) :
  has_flag (info_flags (check_desktop E fs path info))
           THUNAR_VFS_FILE_FLAGS_EXECUTABLE = true
  <-> has_flag (info_flags info) THUNAR_VFS_FILE_FLAGS_EXECUTABLE = true
      \/ (thunar_vfs_mime_info_get_name E (info_mime_info info)
          = "application/x-desktop"
          /\ exists rc,
               xfce_rc_simple_open fs path true = Some rc
               /\ launcher_application E (rc_data rc)).
Proof.
  unfold check_desktop.
  destruct (String.eqb_spec
              (thunar_vfs_mime_info_get_name E (info_mime_info info))
              "application/x-desktop") as [Hd | Hd].
  - destruct (xfce_rc_simple_open fs path true) as [rc |] eqn:Hopen.
    + destruct (desktop_is_application E (xfce_rc_set_group rc "Desktop Entry"))
        eqn:Happ; simpl.
      * rewrite has_flag_set_executable.
        split; [| reflexivity].
        intros _; right; split; [exact Hd |].
        exists rc; split; [reflexivity |].
        apply desktop_is_application_spec; exact Happ.
      * split; [auto |].
        intros [H | (_ & rc' & Heq & Hl)]; [exact H |].
        injection Heq as <-.
        apply desktop_is_application_spec in Hl. congruence.
    + split; [auto |].
      intros [H | (_ & rc' & Heq & _)]; [exact H | discriminate].
  - split; [auto |].
    intros [H | (Hd' & _)]; [exact H | contradiction].
Qed.

Lemma check_desktop_other (fs : FileSystem E) (path : string)
    (info : ThunarVfsInfo E) :
  let info' := check_desktop E fs path info in
  info_type info' = info_type info
  /\ info_mode info' = info_mode info
  /\ info_mime_info info' = info_mime_info info
  /\ has_flag (info_flags info') THUNAR_VFS_FILE_FLAGS_SYMLINK
     = has_flag (info_flags info) THUNAR_VFS_FILE_FLAGS_SYMLINK.
Proof.
  unfold check_desktop.
  destruct (String.eqb _ _); simpl; [| tauto].
  destruct (xfce_rc_simple_open fs path true) as [rc |]; simpl; [| tauto].
  destruct (desktop_is_application E _); simpl; [| tauto].
  rewrite has_flag_symlink_kept. tauto.
Qed.

(** The hint table is allocated exactly for a readable launcher. *)
Lemma check_desktop_hints (fs : FileSystem E) (path : string)
    (info : ThunarVfsInfo E) :
  info_hints info = None ->
  info_hints (check_desktop E fs path info) <> None
  <-> thunar_vfs_mime_info_get_name E (info_mime_info info)
      = "application/x-desktop"
      /\ xfce_rc_simple_open fs path true <> None.
Proof.
  intros Hnone. unfold check_desktop.
  destruct (String.eqb_spec
              (thunar_vfs_mime_info_get_name E (info_mime_info info))
              "application/x-desktop") as [Hd | Hd].
  - destruct (xfce_rc_simple_open fs path true) as [rc |] eqn:Hopen.
    + destruct (desktop_is_application E _); simpl;
        (split; [intros _; split; [exact Hd | discriminate] | discriminate]).
    + rewrite Hnone. split; [contradiction | intros [_ H]; contradiction].
  - rewrite Hnone. split; [contradiction | intros [H _]; contradiction].
Qed.

(** *** The attributes before the content type is known *)

Lemma posix_attributes_plain (fs : FileSystem E) (uri : ThunarVfsURI E)
    (path : string) (lsb : struct_stat) :
  let info := posix_attributes E fs uri path lsb in
  info_hints info = None
  /\ info_ref_count info = 1
  /\ info_uri info = uri
  /\ info_display_name info = thunar_vfs_uri_get_display_name E uri
  /\ has_flag (info_flags info) THUNAR_VFS_FILE_FLAGS_EXECUTABLE = false.
Proof.
  unfold posix_attributes.
  destruct (negb (S_ISLNK (st_mode lsb))); [| destruct (stat E fs path)];
    simpl; repeat split; reflexivity.
Qed.

(** *** A regular file goes through both executability tests *)

Lemma new_for_uri_regular (fs : FileSystem E) (uri : ThunarVfsURI E)
    (info : ThunarVfsInfo E) :
  thunar_vfs_info_new_for_uri E fs uri = BuildOk info ->
  info_type info = THUNAR_VFS_FILE_TYPE_REGULAR ->
  let path := thunar_vfs_uri_get_path E uri in
  exists lsb,
    lstat E fs path = SysOk lsb
    /\ let pre :=
         set_mime_info (posix_attributes E fs uri path lsb)
           (thunar_vfs_mime_database_get_info_for_file E fs path
              (thunar_vfs_uri_get_display_name E uri)) in
       info = check_desktop E fs path (check_executable E fs path pre).
Proof.
  intros Hbuild Hreg. unfold thunar_vfs_info_new_for_uri in Hbuild.
  cbv zeta in *. set (path := thunar_vfs_uri_get_path E uri) in *.
  destruct (lstat E fs path) as [lsb | errno]; [| discriminate].
  exists lsb; split; [reflexivity |].
  unfold determine_mime_type in Hbuild.
  destruct (posix_attributes_plain fs uri path lsb) as (_ & _ & _ & Hname & _).
  repeat match type of Hbuild with
  | (if ?a =? ?c then _ else _) = _ =>
      destruct (Z.eqb_spec a c) as [Heq | _];
        [try (injection Hbuild as <-; simpl in Hreg; rewrite Heq in Hreg;
              discriminate Hreg)
        |]
  end.
  - injection Hbuild as <-. rewrite Hname. reflexivity.
  - discriminate.
Qed.

End BuilderFacts.

(** The executable flag of a regular file comes from one of the two tests of
    the builder, and from nothing else. *)
Lemma executable_flag_spec (E : Env) (fs : FileSystem E) (uri : ThunarVfsURI E)
    (info : ThunarVfsInfo E) :
  thunar_vfs_info_new_for_uri E fs uri = BuildOk info ->
  info_type info = THUNAR_VFS_FILE_TYPE_REGULAR ->
  let path := thunar_vfs_uri_get_path E uri in
  info_mime_info info
  = thunar_vfs_mime_database_get_info_for_file E fs path
      (thunar_vfs_uri_get_display_name E uri)
  /\ (has_flag (info_flags info) THUNAR_VFS_FILE_FLAGS_EXECUTABLE = true
      <-> (permitted E fs path (info_mode info)
           /\ directly_executable E (info_mime_info info))
          \/ (thunar_vfs_mime_info_get_name E (info_mime_info info)
              = "application/x-desktop"
              /\ exists rc,
                   xfce_rc_simple_open fs path true = Some rc
                   /\ launcher_application E (rc_data rc))).
Proof.
  intros Hbuild Hreg path.
  destruct (new_for_uri_regular E fs uri info Hbuild Hreg) as (lsb & _ & Hinfo).
  fold path in Hinfo. cbv zeta in Hinfo.
  set (pre := set_mime_info _ _) in Hinfo.
  destruct (check_executable_other E fs path pre) as (_ & Hmode1 & Hmime1 & _).
  destruct (check_desktop_other E fs path (check_executable E fs path pre))
    as (_ & Hmode2 & Hmime2 & _).
  destruct (posix_attributes_plain E fs uri path lsb) as (_ & _ & _ & _ & Hclear).
  assert (Hmime : info_mime_info info = info_mime_info pre)
    by (rewrite Hinfo, Hmime2, Hmime1; reflexivity).
  assert (Hmode : info_mode info = info_mode pre)
    by (rewrite Hinfo, Hmode2, Hmode1; reflexivity).
  split; [rewrite Hmime; reflexivity |].
  rewrite Hmime, Hmode. rewrite Hinfo at 1.
  rewrite check_desktop_flags, check_executable_flags, Hmime1.
  change (info_flags pre) with (info_flags (posix_attributes E fs uri path lsb)).
  rewrite Hclear.
  split.
  - intros [[Hf | Hp] | Hl]; [discriminate | left; exact Hp | right; exact Hl].
  - intros [Hp | Hl]; [left; right; exact Hp | right; exact Hl].
Qed.

(** C1: the builder sets the executable flag of a regular file through the
    permission-based test when, and only when, (a) one of the owner, group or
    other read bits is set in the mode and the execute-access check on the
    path succeeds, and (b) the enumeration of the file's content type holds
    the native-executable or the shell-script type.  A flagged regular file
    that misses (a) or (b) owes its flag to the launcher test, so it is a
    readable launcher. *)
Theorem executable_by_permission_test (E : Env) (fs : FileSystem E)
    (uri : ThunarVfsURI E) (info : ThunarVfsInfo E) :
  thunar_vfs_info_new_for_uri E fs uri = BuildOk info ->
  info_type info = THUNAR_VFS_FILE_TYPE_REGULAR ->
  let path := thunar_vfs_uri_get_path E uri in
  let by_permission :=
    permitted E fs path (info_mode info)
    /\ directly_executable E (info_mime_info info) in
  info_mime_info info
  = thunar_vfs_mime_database_get_info_for_file E fs path
      (thunar_vfs_uri_get_display_name E uri)
  /\ (by_permission ->
      has_flag (info_flags info) THUNAR_VFS_FILE_FLAGS_EXECUTABLE = true)
  /\ (has_flag (info_flags info) THUNAR_VFS_FILE_FLAGS_EXECUTABLE = true ->
      ~ by_permission ->
      thunar_vfs_mime_info_get_name E (info_mime_info info)
      = "application/x-desktop"
      /\ xfce_rc_simple_open fs path true <> None)
  /\ (thunar_vfs_mime_info_get_name E (info_mime_info info)
      <> "application/x-desktop" ->
      (has_flag (info_flags info) THUNAR_VFS_FILE_FLAGS_EXECUTABLE = true
       <-> by_permission)).
Proof.
  intros Hbuild Hreg path by_permission.
  destruct (executable_flag_spec E fs uri info Hbuild Hreg) as [Hmime Hflag].
  fold path in Hflag. fold by_permission in Hflag.
  split; [exact Hmime |].
  split; [intros Hp; apply Hflag; left; exact Hp |].
  split.
  - intros Hset Hnot. apply Hflag in Hset.
    destruct Hset as [Hp | (Hd & rc & Hopen & _)]; [contradiction |].
    split; [exact Hd | congruence].
  - intros Hnd. rewrite Hflag. split; [| auto].
    intros [Hp | (Hd & _)]; [exact Hp | contradiction].
Qed.

(** C2: a symbolic link whose target cannot be stat'ed yields a descriptor,
    not an error: its type is the symlink variant, its flags hold [symlink],
    and every attribute is the one of the link's own stat. *)
Theorem dangling_symlink (E : Env) (fs : FileSystem E) (uri : ThunarVfsURI E)
    (lsb : struct_stat) (errno : Z) :
  let path := thunar_vfs_uri_get_path E uri in
  lstat E fs path = SysOk lsb ->
  S_ISLNK (st_mode lsb) = true ->
  stat E fs path = SysErr errno ->
  exists info,
    thunar_vfs_info_new_for_uri E fs uri = BuildOk info
    /\ info_type info = THUNAR_VFS_FILE_TYPE_SYMLINK
    /\ info_flags info = THUNAR_VFS_FILE_FLAGS_SYMLINK
    /\ has_flag (info_flags info) THUNAR_VFS_FILE_FLAGS_SYMLINK = true
    /\ info_mode info = Z.land (st_mode lsb) 0xFFF
    /\ info_uid info = st_uid lsb
    /\ info_gid info = st_gid lsb
    /\ info_size info = st_size lsb
    /\ info_atime info = st_atime lsb
    /\ info_ctime info = st_ctime lsb
    /\ info_mtime info = st_mtime lsb
    /\ info_inode info = st_ino lsb
    /\ info_device info = st_dev lsb.
Proof.
  intros path Hlstat Hlnk Hstat.
  unfold thunar_vfs_info_new_for_uri. fold path. rewrite Hlstat.
  unfold posix_attributes. rewrite Hlnk, Hstat. simpl.
  eexists. split; [reflexivity |].
  simpl. repeat split; reflexivity.
Qed.

Lemma dangling_symlink_witness :
  exists info,
    thunar_vfs_info_new_for_uri Sample.env Sample.disk "/home/u/dangling"
    = BuildOk info
    /\ info_type info = THUNAR_VFS_FILE_TYPE_SYMLINK
    /\ info_flags info = THUNAR_VFS_FILE_FLAGS_SYMLINK
    /\ has_flag (info_flags info) THUNAR_VFS_FILE_FLAGS_SYMLINK = true
    /\ info_mode info = Z.land 0xA1FF 0xFFF
    /\ info_uid info = 1000
    /\ info_gid info = 100
    /\ info_size info = 7
    /\ info_atime info = 1130000000
    /\ info_ctime info = 1130000001
    /\ info_mtime info = 1130000002
    /\ info_inode info = 18
    /\ info_device info = 770.
Proof.
  apply (dangling_symlink Sample.env Sample.disk "/home/u/dangling"
           (Sample.mk_stat 0xA1FF 7 18) Sample.ENOENT); reflexivity.
Defined.

Lemma executable_by_permission_test_witness :
  let by_permission :=
    permitted Sample.env Sample.disk "/home/u/run.sh" (info_mode run_sh_info)
    /\ directly_executable Sample.env (info_mime_info run_sh_info) in
  thunar_vfs_info_new_for_uri Sample.env Sample.disk "/home/u/run.sh"
  = BuildOk run_sh_info
  /\ info_type run_sh_info = THUNAR_VFS_FILE_TYPE_REGULAR
  /\ info_mime_info run_sh_info = Sample.x_shellscript
  /\ (by_permission ->
      has_flag (info_flags run_sh_info) THUNAR_VFS_FILE_FLAGS_EXECUTABLE = true)
  /\ (has_flag (info_flags run_sh_info) THUNAR_VFS_FILE_FLAGS_EXECUTABLE = true ->
      ~ by_permission ->
      Sample.mime_name (info_mime_info run_sh_info) = "application/x-desktop"
      /\ xfce_rc_simple_open (E := Sample.env) Sample.disk "/home/u/run.sh" true
         <> None)
  /\ (Sample.mime_name (info_mime_info run_sh_info) <> "application/x-desktop" ->
      (has_flag (info_flags run_sh_info) THUNAR_VFS_FILE_FLAGS_EXECUTABLE = true
       <-> by_permission)).
Proof.
  intros by_permission.
  split; [reflexivity |]. split; [reflexivity |].
  apply (executable_by_permission_test Sample.env Sample.disk
           "/home/u/run.sh" run_sh_info); reflexivity.
Defined.

(** C3 (counterexample): a launcher with the line [Exec=] has an Exec key
    whose value is empty; the builder flags it executable all the same. *)
Lemma launcher_empty_exec_flagged :
  ~ launcher_claim Sample.env Sample.disk "/home/u/empty.desktop".
Proof.
  intros Hclaim.
  destruct (thunar_vfs_info_new_for_uri Sample.env Sample.disk
              "/home/u/empty.desktop") as [info | |] eqn:Hbuild;
    try discriminate Hbuild.
  destruct (xfce_rc_simple_open (E := Sample.env) Sample.disk
              "/home/u/empty.desktop" true) as [rc |] eqn:Hopen;
    try discriminate Hopen.
  specialize (Hclaim info rc Hbuild).
  vm_compute in Hbuild. injection Hbuild as <-.
  vm_compute in Hopen. injection Hopen as <-.
  destruct (Hclaim eq_refl eq_refl eq_refl) as [Hflag _].
  destruct (Hflag eq_refl) as (_ & exec & Hexec & Hne).
  vm_compute in Hexec. injection Hexec as <-.
  apply Hne; reflexivity.
Qed.

(** C3 (amended): when a regular file's content type is the launcher type and
    the launcher can be read, an entry whose Type key is absent or
    "Application" and whose Exec key is present (whatever its value) gets the
    executable flag, whatever the permission bits and the execute-access
    check say; a launcher without such an entry has the flag only if the
    permission-based test set it. *)
Theorem launcher_executable (E : Env) (fs : FileSystem E)
    (uri : ThunarVfsURI E) (info : ThunarVfsInfo E) (rc : XfceRc E) :
  thunar_vfs_info_new_for_uri E fs uri = BuildOk info ->
  info_type info = THUNAR_VFS_FILE_TYPE_REGULAR ->
  thunar_vfs_mime_info_get_name E (info_mime_info info)
  = "application/x-desktop" ->
  xfce_rc_simple_open fs (thunar_vfs_uri_get_path E uri) true = Some rc ->
  (launcher_application E (rc_data rc) ->
   has_flag (info_flags info) THUNAR_VFS_FILE_FLAGS_EXECUTABLE = true)
  /\ (has_flag (info_flags info) THUNAR_VFS_FILE_FLAGS_EXECUTABLE = true ->
      launcher_application E (rc_data rc)
      \/ (permitted E fs (thunar_vfs_uri_get_path E uri) (info_mode info)
          /\ directly_executable E (info_mime_info info))).
Proof.
  intros Hbuild Hreg Hdesktop Hopen.
  destruct (executable_flag_spec E fs uri info Hbuild Hreg) as [_ Hflag].
  cbv zeta in Hflag. split.
  - intros Hl. apply Hflag. right. split; [exact Hdesktop |].
    exists rc; split; [exact Hopen | exact Hl].
  - intros Hset. apply Hflag in Hset.
    destruct Hset as [Hp | (_ & rc' & Hopen' & Hl)]; [right; exact Hp |].
    left. rewrite Hopen in Hopen'. injection Hopen' as <-. exact Hl.
Qed.

Lemma launcher_executable_witness :
  let rc : XfceRc Sample.env :=
    {| rc_data := Sample.parse Sample.editor_text : XfceRcData Sample.env;
       rc_group := None |} in
  thunar_vfs_info_new_for_uri Sample.env Sample.disk "/home/u/editor.desktop"
  = BuildOk editor_info
  /\ xfce_rc_simple_open (E := Sample.env) Sample.disk
       "/home/u/editor.desktop" true = Some rc
  /\ (launcher_application Sample.env (rc_data rc) ->
      has_flag (info_flags editor_info) THUNAR_VFS_FILE_FLAGS_EXECUTABLE = true)
  /\ (has_flag (info_flags editor_info) THUNAR_VFS_FILE_FLAGS_EXECUTABLE = true ->
      launcher_application Sample.env (rc_data rc)
      \/ (permitted Sample.env Sample.disk "/home/u/editor.desktop"
            (info_mode editor_info)
          /\ directly_executable Sample.env (info_mime_info editor_info))).
Proof.
  intros rc.
  split; [reflexivity |]. split; [reflexivity |].
  apply (launcher_executable Sample.env Sample.disk
           "/home/u/editor.desktop" editor_info rc); reflexivity.
Defined.

(** ** Comparison of descriptors *)

Lemma matches_true_iff (E : Env) (a b : ThunarVfsInfo E) :
  thunar_vfs_info_matches E (Some a) (Some b) = true
  <-> 0 < info_ref_count a /\ 0 < info_ref_count b /\ attributes_compared a b.
Proof.
  unfold thunar_vfs_info_matches, attributes_compared.
  destruct (Z.ltb_spec 0 (info_ref_count a)) as [Ha | Ha]; simpl;
    [| split; [discriminate | lia]].
  destruct (Z.ltb_spec 0 (info_ref_count b)) as [Hb | Hb]; simpl;
    [| split; [discriminate | lia]].
  rewrite !andb_true_iff, !Z.eqb_eq, Pos.eqb_eq.
  tauto.
Qed.

Example editor_info_built :
  thunar_vfs_info_new_for_uri Sample.env Sample.disk "/home/u/editor.desktop"
  = BuildOk editor_info.
Proof. reflexivity. Qed.

Example editor_renamed_hints :
  rename_return
    (thunar_vfs_info_rename Sample.env editor_info "Schreiber" Sample.disk) = true
  /\ info_hints editor_renamed
     = Some [Some "accessories-text-editor"; Some "Schreiber"].
Proof. split; reflexivity. Qed.

(** C4 (counterexample): the descriptor built from a launcher and the one
    whose name hint rename has replaced match, although their hints differ. *)
Lemma matches_ignores_hints : ~ matches_claim editor_renamed editor_info.
Proof.
  intros Hclaim.
  destruct (Hclaim ltac:(reflexivity) ltac:(reflexivity)) as [Hall _].
  destruct (Hall eq_refl) as (_ & _ & Hhints).
  vm_compute in Hhints. discriminate Hhints.
Qed.

(** C4 (amended): two live descriptors match if and only if they agree on
    type, mode, flags, uid, gid, size, atime, mtime, ctime, inode, device,
    on the content type (the same record) and on the location (by the
    location's own equality); the display name and the hints are not
    compared. *)
Theorem matches_compared_attributes (E : Env) (a b : ThunarVfsInfo E) :
  0 < info_ref_count a ->
  0 < info_ref_count b ->
  (thunar_vfs_info_matches E (Some a) (Some b) = true
   <-> attributes_compared a b).
Proof.
  intros Ha Hb. rewrite matches_true_iff. tauto.
Qed.

Lemma matches_compared_attributes_witness :
  0 < info_ref_count editor_renamed
  /\ 0 < info_ref_count editor_info
  /\ (thunar_vfs_info_matches Sample.env (Some editor_renamed) (Some editor_info)
      = true
      <-> attributes_compared editor_renamed editor_info).
Proof.
  split; [reflexivity |]. split; [reflexivity |].
  apply (matches_compared_attributes Sample.env editor_renamed editor_info);
    reflexivity.
Defined.

(** C5: provided the location's equality is reflexive and symmetric, matches
    is reflexive on live descriptors and symmetric, and it is false as soon
    as one of type, mode, flags, uid, gid, size, atime, mtime, ctime, inode,
    device, content type (identity) or location differs. *)
Theorem matches_reflexive_symmetric (E : Env) :
  (forall u, thunar_vfs_uri_equal E u u = true) ->
  (forall u v, thunar_vfs_uri_equal E u v = thunar_vfs_uri_equal E v u) ->
  (forall a : ThunarVfsInfo E,
     0 < info_ref_count a -> thunar_vfs_info_matches E (Some a) (Some a) = true)
  /\ (forall a b : option (ThunarVfsInfo E),
        thunar_vfs_info_matches E a b = thunar_vfs_info_matches E b a)
  /\ (forall a b : ThunarVfsInfo E,
        some_attribute_differs a b ->
        thunar_vfs_info_matches E (Some a) (Some b) = false).
Proof.
  intros Hrefl Hsym. split; [| split].
  - intros a Ha. apply matches_true_iff.
    unfold attributes_compared. rewrite Hrefl. tauto.
  - intros [a |] [b |]; try reflexivity.
    unfold thunar_vfs_info_matches.
    destruct (0 <? info_ref_count a), (0 <? info_ref_count b); simpl;
      try reflexivity.
    rewrite (Hsym (info_uri a) (info_uri b)).
    rewrite (Pos.eqb_sym (info_mime_info a)).
    rewrite (Z.eqb_sym (info_type a)), (Z.eqb_sym (info_mode a)),
      (Z.eqb_sym (info_flags a)), (Z.eqb_sym (info_uid a)),
      (Z.eqb_sym (info_gid a)), (Z.eqb_sym (info_size a)),
      (Z.eqb_sym (info_atime a)), (Z.eqb_sym (info_mtime a)),
      (Z.eqb_sym (info_ctime a)), (Z.eqb_sym (info_inode a)),
      (Z.eqb_sym (info_device a)).
    reflexivity.
  - intros a b Hdiff.
    destruct (thunar_vfs_info_matches E (Some a) (Some b)) eqn:Hm;
      [| reflexivity].
    apply matches_true_iff in Hm. destruct Hm as (_ & _ & Hc).
    unfold attributes_compared in Hc. unfold some_attribute_differs in Hdiff.
    exfalso.
    destruct Hc as (? & ? & ? & ? & ? & ? & ? & ? & ? & ? & ? & ? & Huri).
    repeat (destruct Hdiff as [Hdiff | Hdiff]; [contradiction |]).
    congruence.
Qed.

Lemma matches_reflexive_symmetric_witness :
  (forall a : ThunarVfsInfo Sample.env,
     0 < info_ref_count a ->
     thunar_vfs_info_matches Sample.env (Some a) (Some a) = true)
  /\ (forall a b : option (ThunarVfsInfo Sample.env),
        thunar_vfs_info_matches Sample.env a b
        = thunar_vfs_info_matches Sample.env b a)
  /\ (forall a b : ThunarVfsInfo Sample.env,
        some_attribute_differs a b ->
        thunar_vfs_info_matches Sample.env (Some a) (Some b) = false).
Proof.
  apply (matches_reflexive_symmetric Sample.env).
  - exact String.eqb_refl.
  - exact String.eqb_sym.
Defined.

(** ** Rename *)

Lemma valid_name_check (name : string) :
  String.eqb name "" || strchr name "/" = false <-> valid_name name.
Proof.
  unfold valid_name. rewrite orb_false_iff.
  destruct (String.eqb_spec name ""); split; intros [H1 H2]; split;
    congruence.
Qed.

(** Unfold rename along its branches. *)
Ltac rename_cases E info name fs :=
  unfold thunar_vfs_info_rename;
  destruct (0 <? info_ref_count info) eqn:Hlive; simpl;
  [destruct (g_utf8_validate E name) eqn:Hutf8; simpl;
   [destruct (String.eqb name "" || strchr name "/") eqn:Hvalid; simpl;
    [|destruct (String.eqb_spec
                  (thunar_vfs_mime_info_get_name E (info_mime_info info))
                  "application/x-desktop") as [Hdesktop | Hdesktop];
      [destruct (g_key_file_load_from_file E fs
                   (thunar_vfs_uri_get_path E (info_uri info)))
         as [err | key_file] eqn:Hload;
       [|destruct (g_key_file_has_group E key_file "Desktop Entry") eqn:Hgroup;
         simpl;
         [destruct (g_key_file_to_data E (save_new_name E key_file name))
            as [err | data] eqn:Hdata;
          [|destruct (g_file_set_contents E fs
                        (thunar_vfs_uri_get_path E (info_uri info)) data)
              as [fs' [err |]] eqn:Hwrite]
         |]]
      |destruct (g_filename_from_utf8 E name) as [err | dst_name] eqn:Hconv;
       [|destruct (g_file_test_exists E fs
                     (g_build_filename E
                        (g_path_get_dirname E
                           (thunar_vfs_uri_get_path E (info_uri info)))
                        dst_name)) eqn:Hexists;
         [|destruct (g_rename E fs (thunar_vfs_uri_get_path E (info_uri info))
                       (g_build_filename E
                          (g_path_get_dirname E
                             (thunar_vfs_uri_get_path E (info_uri info)))
                          dst_name)) as [fs' | errno] eqn:Hrename]]]]
   |]
  |].

Section RenameFacts.
Variable E : Env.

Lemma rename_failure_keeps (info : ThunarVfsInfo E) (name : string)
  (fs : FileSystem E) :
rename_return (thunar_vfs_info_rename E info name fs) = false ->
rename_info (thunar_vfs_info_rename E info name fs) = info.
Proof.
rename_cases E info name fs; simpl; intros Hret;
  first [reflexivity | discriminate Hret].
Qed.

Lemma rename_failure_sound (info : ThunarVfsInfo E) (name : string)
  (fs : FileSystem E) :
rename_failure E info name fs ->
rename_return (thunar_vfs_info_rename E info name fs) = false.
Proof.
intros Hfail.
rename_cases E info name fs; simpl; try reflexivity; exfalso;
  apply valid_name_check in Hvalid;
  destruct Hfail; try contradiction; congruence.
Qed.

Lemma rename_failure_complete (info : ThunarVfsInfo E) (name : string)
  (fs : FileSystem E) :
0 < info_ref_count info ->
g_utf8_validate E name = true ->
rename_return (thunar_vfs_info_rename E info name fs) = false ->
rename_failure E info name fs.
Proof.
intros Hpos Hvalid8. apply Z.ltb_lt in Hpos.
rename_cases E info name fs; simpl; intros Hret; try congruence;
  try (apply valid_name_check in Hvalid).
- apply invalid_name. intros Hv. apply valid_name_check in Hv. congruence.
- eapply launcher_unreadable; eassumption.
- eapply serialization_failure; eassumption.
- eapply write_failure; eassumption.
- eapply launcher_without_group; eassumption.
- eapply encoding_failure; eassumption.
- eapply destination_collision; eassumption.
- eapply rename_call_failure; eassumption.
Qed.

End RenameFacts.

Example notes_info_built :
  thunar_vfs_info_new_for_uri Sample.env Sample.disk "/home/u/notes.txt"
  = BuildOk notes_info.
Proof. reflexivity. Qed.

(** When the existence test of line 572 answers TRUE for the sibling path
    computed for the new name of a non-launcher, rename fails with the
    already-exists error, issues no call that changes the file system (no
    rename call in particular), and returns the descriptor and the file
    system as they were. *)
Lemma rename_destination_exists (E : Env) (info : ThunarVfsInfo E)
    (name : string) (fs : FileSystem E) (dst_name : string) :
  0 < info_ref_count info ->
  g_utf8_validate E name = true ->
  valid_name name ->
  thunar_vfs_mime_info_get_name E (info_mime_info info)
  <> "application/x-desktop" ->
  g_filename_from_utf8 E name = inr dst_name ->
  g_file_test_exists E fs
    (g_build_filename E
       (g_path_get_dirname E (thunar_vfs_uri_get_path E (info_uri info)))
       dst_name) = true ->
  thunar_vfs_info_rename E info name fs
  = {| rename_return := false;
       rename_error := Some {| error_code := G_FILE_ERROR_EXIST;
                               error_message := g_strerror E EEXIST |};
       rename_info := info;
       rename_fs := fs;
       rename_calls := [] |}.
Proof.
  intros Hlive Hutf8 Hvalid Hnd Hconv Hexists.
  unfold thunar_vfs_info_rename.
  apply Z.ltb_lt in Hlive. apply valid_name_check in Hvalid.
  rewrite Hlive, Hutf8, Hvalid. simpl.
  destruct (String.eqb_spec
              (thunar_vfs_mime_info_get_name E (info_mime_info info))
              "application/x-desktop") as [Hd | _]; [contradiction |].
  rewrite Hconv, Hexists. reflexivity.
Qed.

Lemma rename_destination_exists_witness :
  thunar_vfs_info_rename Sample.env notes_info "run.sh" Sample.disk
  = {| rename_return := false;
       rename_error := Some {| error_code := G_FILE_ERROR_EXIST;
                               error_message := "File exists" |};
       rename_info := notes_info;
       rename_fs := Sample.disk;
       rename_calls := [] |}.
Proof.
  apply (rename_destination_exists Sample.env notes_info "run.sh" Sample.disk
           "run.sh").
  - reflexivity.
  - reflexivity.
  - split; [discriminate | reflexivity].
  - discriminate.
  - reflexivity.
  - reflexivity.
Defined.

(** C6 (the code where the claim fails): the test of line 572 follows
    symbolic links, so it answers FALSE for a sibling path taken by a
    symbolic link whose target is missing.  The destination exists (its
    link-level stat succeeds), yet rename issues the rename call on it and,
    when the call succeeds, returns TRUE with no error and with the
    descriptor pointing to the destination: the link is replaced, where the
    comment of line 571 and the claim promise the already-exists error and no
    change. *)
Theorem rename_over_dangling_link (E : Env) (info : ThunarVfsInfo E)
    (name : string) (fs fs' : FileSystem E) (dst_name : string)
    (lsb : struct_stat) (errno : Z) :
  let src_path := thunar_vfs_uri_get_path E (info_uri info) in
  let dst_path :=
    g_build_filename E (g_path_get_dirname E src_path) dst_name in
  0 < info_ref_count info ->
  g_utf8_validate E name = true ->
  valid_name name ->
  thunar_vfs_mime_info_get_name E (info_mime_info info)
  <> "application/x-desktop" ->
  g_filename_from_utf8 E name = inr dst_name ->
  lstat E fs dst_path = SysOk lsb ->
  S_ISLNK (st_mode lsb) = true ->
  stat E fs dst_path = SysErr errno ->
  g_file_test_exists E fs dst_path = false ->
  g_rename E fs src_path dst_path = SysOk fs' ->
  let after := thunar_vfs_info_rename E info name fs in
  rename_return after = true
  /\ rename_error after = None
  /\ rename_calls after = [CallRename src_path dst_path]
  /\ rename_fs after = fs'
  /\ info_uri (rename_info after) = thunar_vfs_uri_new_for_path E dst_path
  /\ info_display_name (rename_info after) = name.
Proof.
  intros src_path dst_path Hlive Hutf8 Hvalid Hnd Hconv _ _ _ Hmissed Hrename
    after.
  unfold after, thunar_vfs_info_rename.
  apply Z.ltb_lt in Hlive. apply valid_name_check in Hvalid.
  rewrite Hlive, Hutf8, Hvalid. simpl.
  destruct (String.eqb_spec
              (thunar_vfs_mime_info_get_name E (info_mime_info info))
              "application/x-desktop") as [Hd | _]; [contradiction |].
  fold src_path. rewrite Hconv. fold dst_path. rewrite Hmissed, Hrename. simpl.
  unfold update_after_rename. simpl.
  destruct (info_type info =? THUNAR_VFS_FILE_TYPE_REGULAR); simpl;
    repeat split; reflexivity.
Qed.

Lemma rename_over_dangling_link_witness :
  let after :=
    thunar_vfs_info_rename Sample.env notes_info "dangling" Sample.disk in
  lstat Sample.env Sample.disk "/home/u/dangling"
  = SysOk (Sample.mk_stat 0xA1FF 7 18)
  /\ stat Sample.env Sample.disk "/home/u/dangling" = SysErr Sample.ENOENT
  /\ g_file_test_exists Sample.env Sample.disk "/home/u/dangling" = false
  /\ Sample.lookup_file (rename_fs after) "/home/u/dangling"
     = Sample.lookup_file Sample.disk "/home/u/notes.txt"
  /\ Sample.lookup_file (rename_fs after) "/home/u/notes.txt" = None
  /\ rename_return after = true
  /\ rename_error after = None
  /\ rename_calls after = [CallRename "/home/u/notes.txt" "/home/u/dangling"]
  /\ rename_fs after
     = Sample.move_file (Sample.remove_file Sample.disk "/home/u/dangling")
         "/home/u/notes.txt" "/home/u/dangling"
  /\ info_uri (rename_info after) = "/home/u/dangling"
  /\ info_display_name (rename_info after) = "dangling".
Proof.
  intros after.
  split; [reflexivity |]. split; [reflexivity |]. split; [reflexivity |].
  split; [reflexivity |]. split; [reflexivity |].
  apply (rename_over_dangling_link Sample.env notes_info "dangling" Sample.disk
           (Sample.move_file (Sample.remove_file Sample.disk "/home/u/dangling")
              "/home/u/notes.txt" "/home/u/dangling")
           "dangling" (Sample.mk_stat 0xA1FF 7 18) Sample.ENOENT).
  - reflexivity.
  - reflexivity.
  - split; [discriminate | reflexivity].
  - discriminate.
  - reflexivity.
  - reflexivity.
  - reflexivity.
  - reflexivity.
  - reflexivity.
  - reflexivity.
Defined.

(** C7: whenever rename returns failure, the descriptor it leaves is the
    descriptor it was given: location, display name, content type, hints and
    all attributes.  The failures are those of the list: an invalid name, a
    launcher that cannot be read or has no group, a failed serialization or
    write, a failed encoding, a destination that exists, a failed rename
    call; each of them makes rename return failure, and a call on a live
    descriptor with a well-encoded name fails in no other way. *)
Theorem rename_failure_keeps_descriptor (E : Env) (info : ThunarVfsInfo E)
    (name : string) (fs : FileSystem E) :
  (rename_return (thunar_vfs_info_rename E info name fs) = false ->
   rename_info (thunar_vfs_info_rename E info name fs) = info)
  /\ (rename_failure E info name fs ->
      rename_return (thunar_vfs_info_rename E info name fs) = false)
  /\ (0 < info_ref_count info ->
      g_utf8_validate E name = true ->
      rename_return (thunar_vfs_info_rename E info name fs) = false ->
      rename_failure E info name fs).
Proof.
  split; [apply rename_failure_keeps |].
  split; [apply rename_failure_sound | apply rename_failure_complete].
Qed.

Lemma rename_failure_keeps_descriptor_witness :
  rename_return (thunar_vfs_info_rename Sample.env editor_info "a/b" Sample.disk)
  = false
  /\ rename_info (thunar_vfs_info_rename Sample.env editor_info "a/b" Sample.disk)
     = editor_info.
Proof.
  split; [reflexivity |].
  apply (proj1 (rename_failure_keeps_descriptor Sample.env editor_info "a/b"
                  Sample.disk)).
  reflexivity.
Defined.

(** The key chosen by the loop over the preferred locales: the localized key
    of the first locale that has one in the group, if any. *)
Lemma localized_name_key_spec (E : Env) (key_file : GKeyFile E)
    (locale : list string) :
  match localized_name_key E key_file locale with
  | Some key =>
      exists before l after,
        locale = (before ++ l :: after)%list
        /\ key = "Name[" +:+ l +:+ "]"
        /\ g_key_file_has_key E key_file "Desktop Entry" key = true
        /\ forall l',
             In l' before ->
             g_key_file_has_key E key_file "Desktop Entry"
               ("Name[" +:+ l' +:+ "]") = false
  | None =>
      forall l,
        In l locale ->
        g_key_file_has_key E key_file "Desktop Entry" ("Name[" +:+ l +:+ "]")
        = false
  end.
Proof.
  induction locale as [| l rest IH]; simpl.
  - intros l [].
  - destruct (g_key_file_has_key E key_file "Desktop Entry"
                ("Name[" +:+ l +:+ "]")) eqn:Hkey.
    + exists [], l, rest. repeat split; [exact Hkey | intros l' []].
    + destruct (localized_name_key E key_file rest) as [key |].
      * destruct IH as (before & l0 & after & -> & -> & Hhas & Hbefore).
        exists (l :: before), l0, after.
        repeat split; [exact Hhas |].
        intros l' [<- | Hin]; [exact Hkey | apply Hbefore; exact Hin].
      * intros l' [<- | Hin]; [exact Hkey | apply IH; exact Hin].
Qed.

(** C8: renaming a launcher with a valid name sets the new name under the
    key [Name[l]] of the first preferred locale [l] for which that key exists
    in the group "Desktop Entry", and under the key [Name] when no preferred
    locale has one; the text written to the launcher's own path is the
    serialization of the key file so changed, and no other call is issued.
    Once the text is written, the name hint is replaced if the descriptor has
    a hint table; a descriptor without one stays without one, and nothing
    else in the descriptor changes. *)
Theorem rename_launcher (E : Env) (info : ThunarVfsInfo E) (name : string)
    (fs fs' : FileSystem E) (key_file : GKeyFile E) (data : string) :
  let src_path := thunar_vfs_uri_get_path E (info_uri info) in
  let key := name_key E key_file in
  0 < info_ref_count info ->
  g_utf8_validate E name = true ->
  valid_name name ->
  thunar_vfs_mime_info_get_name E (info_mime_info info)
  = "application/x-desktop" ->
  g_key_file_load_from_file E fs src_path = inr key_file ->
  g_key_file_has_group E key_file "Desktop Entry" = true ->
  g_key_file_to_data E
    (g_key_file_set_string E key_file "Desktop Entry" key name) = inr data ->
  g_file_set_contents E fs src_path data = (fs', None) ->
  let after := thunar_vfs_info_rename E info name fs in
  ((exists before l after,
      g_get_language_names E = (before ++ l :: after)%list
      /\ key = "Name[" +:+ l +:+ "]"
      /\ g_key_file_has_key E key_file "Desktop Entry" key = true
      /\ forall l',
           In l' before ->
           g_key_file_has_key E key_file "Desktop Entry"
             ("Name[" +:+ l' +:+ "]") = false)
   \/ (key = "Name"
       /\ forall l,
            In l (g_get_language_names E) ->
            g_key_file_has_key E key_file "Desktop Entry"
              ("Name[" +:+ l +:+ "]") = false))
  /\ rename_return after = true
  /\ rename_error after = None
  /\ rename_calls after = [CallFileSetContents src_path data]
  /\ rename_fs after = fs'
  /\ info_hints (rename_info after)
     = (fun hints => <[THUNAR_VFS_FILE_HINT_NAME := Some name]> hints)
         <$> info_hints info
  /\ set_hints (rename_info after) (info_hints info) = info
  /\ (forall hints,
        info_hints info = Some hints ->
        length hints = THUNAR_VFS_FILE_N_HINTS ->
        thunar_vfs_info_get_hint E (rename_info after) THUNAR_VFS_FILE_HINT_NAME
        = Some name).
Proof.
  intros src_path key Hlive Hutf8 Hvalid Hd Hload Hgroup Hdata Hwrite after.
  split.
  - unfold key, name_key.
    pose proof (localized_name_key_spec E key_file (g_get_language_names E))
      as Hspec.
    destruct (localized_name_key E key_file (g_get_language_names E));
      [left; exact Hspec | right; split; [reflexivity | exact Hspec]].
  - unfold after, thunar_vfs_info_rename.
    apply Z.ltb_lt in Hlive. apply valid_name_check in Hvalid.
    rewrite Hlive, Hutf8, Hvalid. simpl.
    apply String.eqb_eq in Hd. rewrite Hd.
    fold src_path. rewrite Hload, Hgroup. simpl.
    unfold save_new_name. fold key. rewrite Hdata, Hwrite. simpl.
    repeat split.
    + unfold update_name_hint.
      destruct (info_hints info) eqn:Hhints; simpl; [| rewrite Hhints];
        reflexivity.
    + unfold update_name_hint. destruct info as [? ? ? ? ? ? ? ? ? ? ? ? ? ? h ?].
      simpl. destruct h; reflexivity.
    + intros hints Hhints Hlen.
      unfold thunar_vfs_info_get_hint, update_name_hint.
      rewrite Hhints. simpl. rewrite Hlive. simpl.
      rewrite list_lookup_insert_eq; [reflexivity |].
      rewrite Hlen. unfold THUNAR_VFS_FILE_HINT_NAME, THUNAR_VFS_FILE_N_HINTS.
      lia.
Qed.

Lemma rename_launcher_witness :
  let after :=
    thunar_vfs_info_rename Sample.env editor_info "Schreiber" Sample.disk in
  let key := name_key Sample.env (Sample.parse Sample.editor_text) in
  ((exists before l after,
      Sample.locales = (before ++ l :: after)%list
      /\ key = "Name[" +:+ l +:+ "]"
      /\ Sample.has_key (Sample.parse Sample.editor_text) "Desktop Entry" key
         = true
      /\ forall l',
           In l' before ->
           Sample.has_key (Sample.parse Sample.editor_text) "Desktop Entry"
             ("Name[" +:+ l' +:+ "]") = false)
   \/ (key = "Name"
       /\ forall l,
            In l Sample.locales ->
            Sample.has_key (Sample.parse Sample.editor_text) "Desktop Entry"
              ("Name[" +:+ l +:+ "]") = false))
  /\ rename_return after = true
  /\ rename_error after = None
  /\ rename_calls after
     = [CallFileSetContents "/home/u/editor.desktop"
          (Sample.to_data
             (Sample.set_string (Sample.parse Sample.editor_text)
                "Desktop Entry" "Name[de]" "Schreiber"))]
  /\ rename_fs after
     = fst (g_file_set_contents Sample.env Sample.disk "/home/u/editor.desktop"
              (Sample.to_data
                 (Sample.set_string (Sample.parse Sample.editor_text)
                    "Desktop Entry" "Name[de]" "Schreiber")))
  /\ info_hints (rename_info after)
     = Some [Some "accessories-text-editor"; Some "Schreiber"]
  /\ set_hints (rename_info after) (info_hints editor_info) = editor_info
  /\ (forall hints,
        info_hints editor_info = Some hints ->
        length hints = THUNAR_VFS_FILE_N_HINTS ->
        thunar_vfs_info_get_hint Sample.env (rename_info after)
          THUNAR_VFS_FILE_HINT_NAME = Some "Schreiber").
Proof.
  intros after key.
  apply (rename_launcher Sample.env editor_info "Schreiber" Sample.disk
           (fst (g_file_set_contents Sample.env Sample.disk
                   "/home/u/editor.desktop"
                   (Sample.to_data
                      (Sample.set_string (Sample.parse Sample.editor_text)
                         "Desktop Entry" "Name[de]" "Schreiber"))))
           (Sample.parse Sample.editor_text)
           (Sample.to_data
              (Sample.set_string (Sample.parse Sample.editor_text)
                 "Desktop Entry" "Name[de]" "Schreiber"))).
  - reflexivity.
  - reflexivity.
  - split; [discriminate | reflexivity].
  - reflexivity.
  - reflexivity.
  - reflexivity.
  - reflexivity.
  - reflexivity.
Defined.

(** ** Execute *)

Example run_sh_info_built :
  thunar_vfs_info_new_for_uri Sample.env Sample.disk "/home/u/run.sh"
  = BuildOk run_sh_info.
Proof. reflexivity. Qed.

(** C9: when the command line of an execute call is built, the launcher is
    called once, on that command line, and its working directory is the
    directory of the first target's path if there is a target, and the
    directory of the descriptor's own path otherwise. *)
Theorem execute_working_directory (E : Env) (info : ThunarVfsInfo E)
    (screen : option (GdkScreen E)) (uris : list (ThunarVfsURI E))
    (fs : FileSystem E) (argv : list string) :
  0 < info_ref_count info ->
  execute_command_line E info uris fs = inr argv ->
  exists working_directory,
    execute_calls (thunar_vfs_info_execute E info screen uris fs)
    = [CallSpawnOnScreen (default (gdk_screen_get_default E) screen)
         working_directory argv]
    /\ (uris = [] ->
        working_directory
        = g_path_get_dirname E (thunar_vfs_uri_get_path E (info_uri info)))
    /\ (forall first rest,
          uris = first :: rest ->
          working_directory
          = g_path_get_dirname E (thunar_vfs_uri_get_path E first)).
Proof.
  intros Hlive Hargv.
  exists (working_directory_of E uris (thunar_vfs_uri_get_path E (info_uri info))).
  unfold thunar_vfs_info_execute.
  apply Z.ltb_lt in Hlive. rewrite Hlive, Hargv. simpl.
  split; [| split].
  - destruct screen as [s |]; simpl;
      destruct (gdk_spawn_on_screen E fs _ _ argv); reflexivity.
  - intros ->. reflexivity.
  - intros first rest ->. reflexivity.
Qed.

Lemma execute_working_directory_witness :
  execute_command_line Sample.env run_sh_info ["/srv/data/a.txt"; "/tmp/b"]
    Sample.disk
  = inr ["'/home/u/run.sh'"; "/srv/data/a.txt"; "/tmp/b"]
  /\ execute_command_line Sample.env run_sh_info [] Sample.disk
     = inr ["'/home/u/run.sh'"]
  /\ execute_calls
       (thunar_vfs_info_execute Sample.env run_sh_info None
          ["/srv/data/a.txt"; "/tmp/b"] Sample.disk)
     = [CallSpawnOnScreen (E := Sample.env) 0%nat "/srv/data"
          ["'/home/u/run.sh'"; "/srv/data/a.txt"; "/tmp/b"]]
  /\ execute_calls
       (thunar_vfs_info_execute Sample.env run_sh_info None [] Sample.disk)
     = [CallSpawnOnScreen (E := Sample.env) 0%nat "/home/u"
          ["'/home/u/run.sh'"]].
Proof.
  split; [reflexivity |]. split; [reflexivity |]. split.
  - destruct (execute_working_directory Sample.env run_sh_info None
                ["/srv/data/a.txt"; "/tmp/b"] Sample.disk
                ["'/home/u/run.sh'"; "/srv/data/a.txt"; "/tmp/b"]
                ltac:(reflexivity) ltac:(reflexivity))
      as (wd & Hcalls & _ & Hfirst).
    rewrite Hcalls, (Hfirst _ _ eq_refl). reflexivity.
  - destruct (execute_working_directory Sample.env run_sh_info None
                [] Sample.disk ["'/home/u/run.sh'"]
                ltac:(reflexivity) ltac:(reflexivity))
      as (wd & Hcalls & Hnone & _).
    rewrite Hcalls, (Hnone eq_refl). reflexivity.
Defined.

(** ** The hint table *)

Section HintFacts.
Variable E : Env.

Lemma new_for_uri_hints (fs : FileSystem E) (uri : ThunarVfsURI E)
  (built : ThunarVfsInfo E) :
thunar_vfs_info_new_for_uri E fs uri = BuildOk built ->
info_hints built <> None
<-> info_type built = THUNAR_VFS_FILE_TYPE_REGULAR
    /\ thunar_vfs_mime_info_get_name E (info_mime_info built)
       = "application/x-desktop"
    /\ xfce_rc_simple_open fs (thunar_vfs_uri_get_path E uri) true <> None.
Proof.
intros Hbuild.
destruct (Z.eq_dec (info_type built) THUNAR_VFS_FILE_TYPE_REGULAR)
  as [Hreg | Hreg].
- destruct (new_for_uri_regular E fs uri built Hbuild Hreg)
    as (lsb & _ & Hinfo).
  cbv zeta in Hinfo.
  set (path := thunar_vfs_uri_get_path E uri) in *.
  set (pre := set_mime_info _ _) in Hinfo.
  destruct (check_executable_other E fs path pre) as (_ & _ & Hmime1 & Hh1 & _).
  destruct (check_desktop_other E fs path (check_executable E fs path pre))
    as (_ & _ & Hmime2 & _).
  destruct (posix_attributes_plain E fs uri path lsb) as (Hnone & _).
  assert (Hpre : info_hints (check_executable E fs path pre) = None)
    by (rewrite Hh1; exact Hnone).
  assert (Hm : info_mime_info built
               = info_mime_info (check_executable E fs path pre))
    by (rewrite Hinfo; exact Hmime2).
  rewrite Hm. rewrite Hinfo at 1.
  rewrite (check_desktop_hints E fs path _ Hpre). tauto.
- split; [| intros [H _]; contradiction].
  intros Hhints. exfalso. apply Hhints.
  unfold thunar_vfs_info_new_for_uri in Hbuild.
  destruct (lstat E fs (thunar_vfs_uri_get_path E uri)) as [lsb | errno];
    [| discriminate].
  destruct (posix_attributes_plain E fs uri (thunar_vfs_uri_get_path E uri) lsb)
    as (Hnone & _).
  unfold determine_mime_type in Hbuild.
  repeat match type of Hbuild with
  | (if ?a =? ?c then _ else _) = _ =>
      destruct (Z.eqb_spec a c) as [Heq | _];
        [try (injection Hbuild as <-; exact Hnone) |]
  end.
  + injection Hbuild as <-.
    destruct (check_desktop_other E fs (thunar_vfs_uri_get_path E uri)
                (check_executable E fs (thunar_vfs_uri_get_path E uri)
                   (set_mime_info
                      (posix_attributes E fs uri
                         (thunar_vfs_uri_get_path E uri) lsb)
                      (thunar_vfs_mime_database_get_info_for_file E fs
                         (thunar_vfs_uri_get_path E uri)
                         (info_display_name
                            (posix_attributes E fs uri
                               (thunar_vfs_uri_get_path E uri) lsb))))))
      as (Ht2 & _).
    destruct (check_executable_other E fs (thunar_vfs_uri_get_path E uri)
                (set_mime_info
                   (posix_attributes E fs uri
                      (thunar_vfs_uri_get_path E uri) lsb)
                   (thunar_vfs_mime_database_get_info_for_file E fs
                      (thunar_vfs_uri_get_path E uri)
                      (info_display_name
                         (posix_attributes E fs uri
                            (thunar_vfs_uri_get_path E uri) lsb)))))
      as (Ht1 & _).
    exfalso. apply Hreg. rewrite Ht2, Ht1. exact Heq.
  + discriminate.
Qed.

(** A file whose resolved type is "regular" always yields a descriptor. *)
Lemma new_for_uri_regular_ok (fs : FileSystem E) (uri : ThunarVfsURI E)
  (lsb : struct_stat) :
lstat E fs (thunar_vfs_uri_get_path E uri) = SysOk lsb ->
info_type (posix_attributes E fs uri (thunar_vfs_uri_get_path E uri) lsb)
= THUNAR_VFS_FILE_TYPE_REGULAR ->
exists built,
  thunar_vfs_info_new_for_uri E fs uri = BuildOk built
  /\ info_type built = THUNAR_VFS_FILE_TYPE_REGULAR.
Proof.
intros Hlstat Hreg.
unfold thunar_vfs_info_new_for_uri. rewrite Hlstat.
unfold determine_mime_type. rewrite Hreg. simpl.
eexists; split; [reflexivity |].
match goal with
| |- info_type (check_desktop E ?f ?p (check_executable E ?f ?p ?i)) = _ =>
    destruct (check_desktop_other E f p (check_executable E f p i))
      as (-> & _);
    destruct (check_executable_other E f p i) as (-> & _)
end.
exact Hreg.
Qed.

(** Rename neither allocates nor frees the hint table, and a descriptor with
  hints keeps its type and its content type. *)
Lemma rename_hints (info : ThunarVfsInfo E) (name : string) (fs : FileSystem E) :
let info' := rename_info (thunar_vfs_info_rename E info name fs) in
(info_hints info' <> None <-> info_hints info <> None)
/\ (thunar_vfs_mime_info_get_name E (info_mime_info info)
    = "application/x-desktop" ->
    info_mime_info info' = info_mime_info info
    /\ info_type info' = info_type info).
Proof.
rename_cases E info name fs; simpl; try tauto; try contradiction.
- unfold update_name_hint.
  destruct (info_hints info) eqn:Hh; simpl; [| rewrite Hh]; split;
    try tauto; split; intros H; try discriminate; try exact H.
- unfold update_after_rename. simpl.
  destruct (info_type info =? THUNAR_VFS_FILE_TYPE_REGULAR); simpl; tauto.
Qed.

Lemma renamed_from_hints (start info : ThunarVfsInfo E) :
(info_hints start <> None ->
 thunar_vfs_mime_info_get_name E (info_mime_info start)
 = "application/x-desktop") ->
renamed_from start info ->
(info_hints info <> None <-> info_hints start <> None)
/\ (info_hints info <> None ->
    info_mime_info info = info_mime_info start
    /\ info_type info = info_type start).
Proof.
intros Hstart Hren.
induction Hren as [| info name fs Hren [IHiff IHsame]].
- tauto.
- destruct (rename_hints info name fs) as [Hiff Hsame].
  cbv zeta in Hiff, Hsame.
  split; [rewrite Hiff; exact IHiff |].
  intros Hh. apply Hiff in Hh.
  destruct (IHsame Hh) as [Hm Ht].
  assert (Hd : thunar_vfs_mime_info_get_name E (info_mime_info info)
               = "application/x-desktop")
    by (rewrite Hm; apply Hstart, IHiff, Hh).
  destruct (Hsame Hd) as [Hm' Ht'].
  split; congruence.
Qed.

(** The hint table, when there is one, has [THUNAR_VFS_FILE_N_HINTS] entries. *)
Lemma new_for_uri_hints_length (fs : FileSystem E) (uri : ThunarVfsURI E)
    (built : ThunarVfsInfo E) (hints : list (option string)) :
  thunar_vfs_info_new_for_uri E fs uri = BuildOk built ->
  info_hints built = Some hints ->
  length hints = THUNAR_VFS_FILE_N_HINTS.
Proof.
  intros Hbuild Hhints.
  assert (Hne : info_hints built <> None) by (rewrite Hhints; discriminate).
  apply (new_for_uri_hints fs uri built Hbuild) in Hne.
  destruct Hne as (Hreg & _ & _).
  destruct (new_for_uri_regular E fs uri built Hbuild Hreg) as (lsb & _ & Hinfo).
  cbv zeta in Hinfo.
  set (path := thunar_vfs_uri_get_path E uri) in *.
  set (pre := set_mime_info _ _) in Hinfo.
  destruct (check_executable_other E fs path pre) as (_ & _ & _ & Hh1 & _).
  destruct (posix_attributes_plain E fs uri path lsb) as (Hnone & _).
  rewrite Hinfo in Hhints. unfold check_desktop in Hhints.
  destruct (String.eqb _ _);
    [destruct (xfce_rc_simple_open fs path true) as [rc |] |];
    try (rewrite Hh1 in Hhints; simpl in Hhints; congruence).
  assert (Hlen : forall (a b : option string) (h : list (option string)),
            Some
              match b with
              | Some str =>
                  <[THUNAR_VFS_FILE_HINT_NAME := Some str]>
                    match a with
                    | Some str' =>
                        <[THUNAR_VFS_FILE_HINT_ICON := Some str']>
                          (replicate THUNAR_VFS_FILE_N_HINTS None)
                    | None => replicate THUNAR_VFS_FILE_N_HINTS None
                    end
              | None =>
                  match a with
                  | Some str' =>
                      <[THUNAR_VFS_FILE_HINT_ICON := Some str']>
                        (replicate THUNAR_VFS_FILE_N_HINTS None)
                  | None => replicate THUNAR_VFS_FILE_N_HINTS None
                  end
              end = Some h ->
            length h = THUNAR_VFS_FILE_N_HINTS).
  { intros a b h Heq. injection Heq as <-. destruct a, b; reflexivity. }
  destruct (desktop_is_application E _); simpl in Hhints;
    exact (Hlen _ _ _ Hhints).
Qed.

Lemma rename_hints_length (info : ThunarVfsInfo E) (name : string)
    (fs : FileSystem E) (n : nat) :
  (forall hints, info_hints info = Some hints -> length hints = n) ->
  forall hints,
    info_hints (rename_info (thunar_vfs_info_rename E info name fs)) = Some hints ->
    length hints = n.
Proof.
  intros Hlen hints.
  rename_cases E info name fs; simpl; try apply Hlen.
  - unfold update_name_hint. destruct (info_hints info) as [h |] eqn:Hh; simpl.
    + intros Heq. injection Heq as <-. rewrite length_insert. apply Hlen.
      reflexivity.
    + rewrite Hh. discriminate.
  - unfold update_after_rename. simpl.
    destruct (info_type info =? THUNAR_VFS_FILE_TYPE_REGULAR); simpl; apply Hlen.
Qed.

Lemma renamed_from_hints_length (fs : FileSystem E) (uri : ThunarVfsURI E)
    (built info : ThunarVfsInfo E) :
  thunar_vfs_info_new_for_uri E fs uri = BuildOk built ->
  renamed_from built info ->
  forall hints,
    info_hints info = Some hints -> length hints = THUNAR_VFS_FILE_N_HINTS.
Proof.
  intros Hbuild Hren.
  induction Hren as [| info name fs' Hren IH].
  - intros hints. apply (new_for_uri_hints_length fs uri built hints Hbuild).
  - apply rename_hints_length. exact IH.
Qed.

End HintFacts.

(** C10: a descriptor made by the builder and then renamed any number of
    times has a hint table only if the builder allocated one, and the builder
    allocates one exactly for a regular file whose content type is the
    launcher type and whose launcher can be read; such a descriptor still has
    the content type it was built with.  So the hints stay absent for a file
    that is not regular, for a regular file of another content type, and for
    a launcher that cannot be read, for which the builder still returns a
    descriptor. *)
Theorem hints_only_for_launchers (E : Env) (fs : FileSystem E)
    (uri : ThunarVfsURI E) :
  let path := thunar_vfs_uri_get_path E uri in
  (forall built info,
     thunar_vfs_info_new_for_uri E fs uri = BuildOk built ->
     renamed_from built info ->
     (info_hints built <> None
      <-> info_type built = THUNAR_VFS_FILE_TYPE_REGULAR
          /\ thunar_vfs_mime_info_get_name E (info_mime_info built)
             = "application/x-desktop"
          /\ xfce_rc_simple_open fs path true <> None)
     /\ (info_hints info <> None <-> info_hints built <> None)
     /\ (info_hints info <> None ->
         info_mime_info info = info_mime_info built
         /\ thunar_vfs_mime_info_get_name E (info_mime_info info)
            = "application/x-desktop"))
  /\ (forall lsb,
        lstat E fs path = SysOk lsb ->
        info_type (posix_attributes E fs uri path lsb)
        = THUNAR_VFS_FILE_TYPE_REGULAR ->
        xfce_rc_simple_open fs path true = None ->
        exists built,
          thunar_vfs_info_new_for_uri E fs uri = BuildOk built
          /\ info_hints built = None).
Proof.
  intros path. split.
  - intros built info Hbuild Hren.
    pose proof (new_for_uri_hints E fs uri built Hbuild) as Hbuilt.
    fold path in Hbuilt.
    assert (Hstart : info_hints built <> None ->
                     thunar_vfs_mime_info_get_name E (info_mime_info built)
                     = "application/x-desktop")
      by (intros H; apply Hbuilt in H; tauto).
    destruct (renamed_from_hints E built info Hstart Hren) as [Hiff Hsame].
    split; [exact Hbuilt |]. split; [exact Hiff |].
    intros Hh. destruct (Hsame Hh) as [Hm _].
    split; [exact Hm |]. rewrite Hm. apply Hstart, Hiff, Hh.
  - intros lsb Hlstat Hreg Hopen.
    destruct (new_for_uri_regular_ok E fs uri lsb Hlstat Hreg)
      as (built & Hbuild & _).
    exists built; split; [exact Hbuild |].
    destruct (info_hints built) eqn:Hh; [| reflexivity].
    exfalso.
    assert (Hne : info_hints built <> None) by (rewrite Hh; discriminate).
    apply (new_for_uri_hints E fs uri built Hbuild) in Hne.
    destruct Hne as (_ & _ & Hopen'). fold path in Hopen'. contradiction.
Qed.

Lemma hints_only_for_launchers_witness :
  renamed_from editor_info editor_renamed
  /\ info_hints editor_renamed <> None
  /\ Sample.mime_name (info_mime_info editor_renamed) = "application/x-desktop"
  /\ exists built,
       thunar_vfs_info_new_for_uri Sample.env Sample.disk
         "/home/u/locked.desktop" = BuildOk built
       /\ info_hints built = None.
Proof.
  assert (Hren : renamed_from editor_info editor_renamed)
    by (apply renamed_again, renamed_none).
  destruct (hints_only_for_launchers Sample.env Sample.disk
              "/home/u/editor.desktop") as [Hbuilt _].
  destruct (Hbuilt editor_info editor_renamed eq_refl Hren)
    as (_ & _ & Hsame).
  destruct (hints_only_for_launchers Sample.env Sample.disk
              "/home/u/locked.desktop") as [_ Hlocked].
  split; [exact Hren |].
  split; [discriminate |].
  split; [apply Hsame; discriminate |].
  apply (Hlocked (Sample.mk_stat 0x8000 50 17)); reflexivity.
Defined.


(** * Further properties of the builder *)

Section BuilderMore.
Variable E : Env.

Lemma determine_mime_type_cases (fs : FileSystem E) (path : string)
    (info : ThunarVfsInfo E) :
  determine_mime_type E fs path info
  = match fixed_mime_name (info_type info) with
    | Some name =>
        BuildOk (set_mime_info info (thunar_vfs_mime_database_get_info E name))
    | None =>
        if info_type info =? THUNAR_VFS_FILE_TYPE_REGULAR then
          BuildOk
            (check_desktop E fs path
               (check_executable E fs path
                  (set_mime_info info
                     (thunar_vfs_mime_database_get_info_for_file E fs path
                        (info_display_name info)))))
        else BuildNotReached
    end.
Proof.
  unfold determine_mime_type, fixed_mime_name.
  repeat match goal with
  | |- context [if ?a =? ?c then _ else _] => destruct (a =? c)
  end; reflexivity.
Qed.

Lemma recognized_types_spec (ty : Z) :
  In ty recognized_types
  <-> fixed_mime_name ty <> None \/ ty = THUNAR_VFS_FILE_TYPE_REGULAR.
Proof.
  unfold recognized_types, fixed_mime_name. simpl.
  repeat match goal with
  | |- context [if ?a =? ?c then _ else _] => destruct (Z.eqb_spec a c)
  end; split; intros H; try (left; discriminate); try tauto;
    try (subst ty; tauto).
  - destruct H as [H | [H | [H | [H | [H | [H | [H | []]]]]]]];
      try (symmetry in H; contradiction).
    right; symmetry; exact H.
  - destruct H as [H | H]; [contradiction H; reflexivity |].
    do 6 right. left. symmetry; exact H.
Qed.

(** The three shapes of the attributes, by the kind of node. *)
Lemma posix_attributes_cases (fs : FileSystem E) (uri : ThunarVfsURI E)
    (path : string) (lsb : struct_stat) :
  let base := posix_attributes E fs uri path lsb in
  (S_ISLNK (st_mode lsb) = false
   /\ info_type base = Z.shiftr (Z.land (st_mode lsb) S_IFMT) 12
   /\ info_flags base = THUNAR_VFS_FILE_FLAGS_NONE
   /\ attributes_of base lsb)
  \/ (S_ISLNK (st_mode lsb) = true
      /\ exists sb,
           stat E fs path = SysOk sb
           /\ info_type base = Z.shiftr (Z.land (st_mode sb) S_IFMT) 12
           /\ info_flags base = THUNAR_VFS_FILE_FLAGS_SYMLINK
           /\ attributes_of base sb)
  \/ (S_ISLNK (st_mode lsb) = true
      /\ (exists errno, stat E fs path = SysErr errno)
      /\ info_type base = THUNAR_VFS_FILE_TYPE_SYMLINK
      /\ info_flags base = THUNAR_VFS_FILE_FLAGS_SYMLINK
      /\ attributes_of base lsb).
Proof.
  unfold posix_attributes, attributes_of.
  destruct (S_ISLNK (st_mode lsb)); simpl.
  - destruct (stat E fs path) as [sb | errno]; simpl.
    + right; left. split; [reflexivity |]. exists sb. repeat split.
    + right; right. split; [reflexivity |].
      split; [exists errno; reflexivity |]. repeat split.
  - left. repeat split.
Qed.

(** What the two tests of the regular case leave alone. *)
Lemma regular_case_keeps (fs : FileSystem E) (path : string)
    (pre : ThunarVfsInfo E) :
  let info := check_desktop E fs path (check_executable E fs path pre) in
  info_type info = info_type pre
  /\ info_mode info = info_mode pre
  /\ info_uid info = info_uid pre
  /\ info_gid info = info_gid pre
  /\ info_size info = info_size pre
  /\ info_atime info = info_atime pre
  /\ info_ctime info = info_ctime pre
  /\ info_mtime info = info_mtime pre
  /\ info_inode info = info_inode pre
  /\ info_device info = info_device pre
  /\ info_mime_info info = info_mime_info pre
  /\ info_uri info = info_uri pre
  /\ info_display_name info = info_display_name pre
  /\ info_ref_count info = info_ref_count pre
  /\ (info_flags info = info_flags pre
      \/ info_flags info
         = Z.lor (info_flags pre) THUNAR_VFS_FILE_FLAGS_EXECUTABLE).
Proof.
  unfold check_desktop, check_executable.
  destruct (negb (Z.land (info_mode pre) 0x124 =? 0)
            && (g_access E fs path X_OK =? 0));
    [destruct (well_known_executable E _) |]; simpl;
    (destruct (String.eqb _ _);
     [destruct (xfce_rc_simple_open fs path true) as [rc |];
      [destruct (desktop_is_application E _) |] |]); simpl;
    repeat split; auto.
  right. rewrite <- Z.lor_assoc. reflexivity.
Qed.

(** Every descriptor of the builder comes from a successful lstat, through
    one of the two kinds of cases of the switch. *)
Lemma new_for_uri_inv (fs : FileSystem E) (uri : ThunarVfsURI E)
    (info : ThunarVfsInfo E) :
  thunar_vfs_info_new_for_uri E fs uri = BuildOk info ->
  let path := thunar_vfs_uri_get_path E uri in
  exists lsb,
    lstat E fs path = SysOk lsb
    /\ let base := posix_attributes E fs uri path lsb in
       (exists name,
          fixed_mime_name (info_type base) = Some name
          /\ info
             = set_mime_info base (thunar_vfs_mime_database_get_info E name))
       \/ (fixed_mime_name (info_type base) = None
           /\ info_type base = THUNAR_VFS_FILE_TYPE_REGULAR
           /\ info
              = check_desktop E fs path
                  (check_executable E fs path
                     (set_mime_info base
                        (thunar_vfs_mime_database_get_info_for_file E fs path
                           (info_display_name base))))).
Proof.
  intros Hbuild path. unfold thunar_vfs_info_new_for_uri in Hbuild.
  fold path in Hbuild.
  destruct (lstat E fs path) as [lsb | errno]; [| discriminate].
  exists lsb; split; [reflexivity |].
  rewrite determine_mime_type_cases in Hbuild. cbv zeta.
  destruct (fixed_mime_name _) as [name |].
  - left. exists name. split; [reflexivity |]. congruence.
  - right. split; [reflexivity |].
    destruct (Z.eqb_spec (info_type (posix_attributes E fs uri path lsb))
                THUNAR_VFS_FILE_TYPE_REGULAR) as [Hreg | _]; [| discriminate].
    split; [exact Hreg | congruence].
Qed.

End BuilderMore.

(** X1: the builder reports an error exactly when the link-level stat fails;
    the error then carries the code of the errno and a message naming the
    path.  A dangling link or an unreadable launcher is no error. *)
Theorem new_for_uri_error (E : Env) (fs : FileSystem E) (uri : ThunarVfsURI E)
    (err : GError) :
  let path := thunar_vfs_uri_get_path E uri in
  thunar_vfs_info_new_for_uri E fs uri = BuildError err
  <-> exists errno,
        lstat E fs path = SysErr errno
        /\ err = {| error_code := g_file_error_from_errno E errno;
                    error_message :=
                      "Failed to stat file `" +:+ path +:+ "': "
                      +:+ g_strerror E errno |}.
Proof.
  intros path. unfold thunar_vfs_info_new_for_uri. fold path.
  destruct (lstat E fs path) as [lsb | errno].
  - rewrite determine_mime_type_cases.
    split.
    + destruct (fixed_mime_name _); [discriminate |].
      destruct (_ =? _); discriminate.
    + intros (errno & Hfail & _). discriminate Hfail.
  - split.
    + intros Herr. exists errno. split; [reflexivity | congruence].
    + intros (errno' & Hfail & ->). injection Hfail as <-. reflexivity.
Qed.

(** X2: the flags of a built descriptor hold [symlink] exactly when the node
    itself is a symbolic link, whether or not the link resolves and whatever
    the executability tests add. *)
Theorem symlink_flag_iff_link (E : Env) (fs : FileSystem E)
    (uri : ThunarVfsURI E) (info : ThunarVfsInfo E) (lsb : struct_stat) :
  thunar_vfs_info_new_for_uri E fs uri = BuildOk info ->
  lstat E fs (thunar_vfs_uri_get_path E uri) = SysOk lsb ->
  has_flag (info_flags info) THUNAR_VFS_FILE_FLAGS_SYMLINK
  = S_ISLNK (st_mode lsb).
Proof.
  intros Hbuild Hlstat.
  destruct (new_for_uri_inv E fs uri info Hbuild) as (lsb' & Hlstat' & Hcases).
  rewrite Hlstat in Hlstat'. injection Hlstat' as <-.
  cbv zeta in Hcases.
  set (path := thunar_vfs_uri_get_path E uri) in *.
  assert (Hbase : has_flag (info_flags (posix_attributes E fs uri path lsb))
                    THUNAR_VFS_FILE_FLAGS_SYMLINK = S_ISLNK (st_mode lsb)).
  { destruct (posix_attributes_cases E fs uri path lsb)
      as [(Hl & _ & Hf & _) | [(Hl & sb & _ & _ & Hf & _) | (Hl & _ & _ & Hf & _)]];
      rewrite Hf, Hl; reflexivity. }
  destruct Hcases as [(name & _ & ->) | (_ & _ & ->)].
  - exact Hbase.
  - destruct (check_desktop_other E fs path
                (check_executable E fs path
                   (set_mime_info (posix_attributes E fs uri path lsb)
                      (thunar_vfs_mime_database_get_info_for_file E fs path
                         (info_display_name
                            (posix_attributes E fs uri path lsb))))))
      as (_ & _ & _ & ->).
    destruct (check_executable_other E fs path
                (set_mime_info (posix_attributes E fs uri path lsb)
                   (thunar_vfs_mime_database_get_info_for_file E fs path
                      (info_display_name
                         (posix_attributes E fs uri path lsb)))))
      as (_ & _ & _ & _ & ->).
    exact Hbase.
Qed.

Lemma symlink_flag_iff_link_witness :
  (exists info,
     thunar_vfs_info_new_for_uri Sample.env Sample.disk "/home/u/shortcut"
     = BuildOk info
     /\ has_flag (info_flags info) THUNAR_VFS_FILE_FLAGS_SYMLINK = true
     /\ has_flag (info_flags info) THUNAR_VFS_FILE_FLAGS_EXECUTABLE = true)
  /\ has_flag (info_flags run_sh_info) THUNAR_VFS_FILE_FLAGS_SYMLINK = false.
Proof.
  split.
  - eexists. split; [reflexivity |]. split; [| reflexivity].
    apply (symlink_flag_iff_link Sample.env Sample.disk "/home/u/shortcut" _
             (Sample.mk_stat 0xA1FF 6 19)); reflexivity.
  - apply (symlink_flag_iff_link Sample.env Sample.disk "/home/u/run.sh"
             run_sh_info (Sample.mk_stat 0x81ED 120 11)); reflexivity.
Defined.

(** X3: the attributes and the type of a built descriptor are those of the
    link-level stat when the node is no symbolic link, and those of the
    target's stat when it is a link that resolves. *)
Theorem attributes_source (E : Env) (fs : FileSystem E) (uri : ThunarVfsURI E)
    (info : ThunarVfsInfo E) (lsb : struct_stat) :
  let path := thunar_vfs_uri_get_path E uri in
  thunar_vfs_info_new_for_uri E fs uri = BuildOk info ->
  lstat E fs path = SysOk lsb ->
  (S_ISLNK (st_mode lsb) = false ->
   attributes_of info lsb
   /\ info_type info = Z.shiftr (Z.land (st_mode lsb) S_IFMT) 12)
  /\ (forall sb,
        S_ISLNK (st_mode lsb) = true ->
        stat E fs path = SysOk sb ->
        attributes_of info sb
        /\ info_type info = Z.shiftr (Z.land (st_mode sb) S_IFMT) 12).
Proof.
  intros path Hbuild Hlstat.
  destruct (new_for_uri_inv E fs uri info Hbuild) as (lsb' & Hlstat' & Hcases).
  fold path in Hlstat', Hcases.
  rewrite Hlstat in Hlstat'. injection Hlstat' as <-.
  cbv zeta in Hcases.
  set (base := posix_attributes E fs uri path lsb) in *.
  assert (Hsame : forall b, attributes_of base b -> attributes_of info b).
  { intros b Hb. unfold attributes_of in *.
    destruct Hcases as [(name & _ & ->) | (_ & _ & ->)]; [exact Hb |].
    destruct (regular_case_keeps E fs path
                (set_mime_info base
                   (thunar_vfs_mime_database_get_info_for_file E fs path
                      (info_display_name base))))
      as (_ & -> & -> & -> & -> & -> & -> & -> & -> & -> & _).
    exact Hb. }
  assert (Htype : info_type info = info_type base).
  { destruct Hcases as [(name & _ & ->) | (_ & _ & ->)]; [reflexivity |].
    destruct (regular_case_keeps E fs path
                (set_mime_info base
                   (thunar_vfs_mime_database_get_info_for_file E fs path
                      (info_display_name base))))
      as (-> & _).
    reflexivity. }
  rewrite Htype.
  pose proof (posix_attributes_cases E fs uri path lsb) as Hpa.
  cbv zeta in Hpa. fold base in Hpa.
  destruct Hpa
    as [(Hl & Ht & _ & Ha) | [(Hl & sb & Hs & Ht & _ & Ha) | (Hl & (errno & Hs) & _)]].
  - split; [intros _; split; [apply Hsame; exact Ha | exact Ht] |].
    intros sb Hl'. congruence.
  - split; [intros Hl'; congruence |].
    intros sb' _ Hs'. rewrite Hs in Hs'. injection Hs' as <-.
    split; [apply Hsame; exact Ha | exact Ht].
  - split; [intros Hl'; congruence |].
    intros sb' _ Hs'. congruence.
Qed.

Lemma attributes_source_witness :
  exists info,
    thunar_vfs_info_new_for_uri Sample.env Sample.disk "/home/u/shortcut"
    = BuildOk info
    /\ attributes_of info (Sample.mk_stat 0x81ED 120 11)
    /\ info_type info = THUNAR_VFS_FILE_TYPE_REGULAR.
Proof.
  eexists. split; [reflexivity |].
  apply (attributes_source Sample.env Sample.disk "/home/u/shortcut" _
           (Sample.mk_stat 0xA1FF 6 19)); reflexivity.
Defined.

Lemma permission_bits_bound (m : Z) : 0 <= Z.land m 0xFFF < 4096.
Proof.
  change 0xFFF with (Z.ones 12).
  rewrite Z.land_ones by lia.
  change (2 ^ 12) with 4096. apply Z.mod_pos_bound. lia.
Qed.

(** X4: a built descriptor starts with one reference, keeps the location it
    was built from and that location's display name, has permission bits
    within twelve bits, and has no flag bit besides [symlink] and
    [executable]. *)
Theorem new_for_uri_invariants (E : Env) (fs : FileSystem E)
    (uri : ThunarVfsURI E) (info : ThunarVfsInfo E) :
  thunar_vfs_info_new_for_uri E fs uri = BuildOk info ->
  info_ref_count info = 1
  /\ info_uri info = uri
  /\ info_display_name info = thunar_vfs_uri_get_display_name E uri
  /\ 0 <= info_mode info < 4096
  /\ 0 <= info_flags info < 4
  /\ Z.land (info_flags info)
       (Z.lor THUNAR_VFS_FILE_FLAGS_SYMLINK THUNAR_VFS_FILE_FLAGS_EXECUTABLE)
     = info_flags info.
Proof.
  intros Hbuild.
  destruct (new_for_uri_inv E fs uri info Hbuild) as (lsb & _ & Hcases).
  cbv zeta in Hcases.
  set (path := thunar_vfs_uri_get_path E uri) in *.
  set (base := posix_attributes E fs uri path lsb) in *.
  destruct (posix_attributes_plain E fs uri path lsb)
    as (_ & Href & Huri & Hname & _).
  fold base in Href, Huri, Hname.
  assert (Hmode : 0 <= info_mode base < 4096).
  { pose proof (posix_attributes_cases E fs uri path lsb) as Hpa.
    cbv zeta in Hpa. fold base in Hpa. unfold attributes_of in Hpa.
    destruct Hpa
      as [(_ & _ & _ & -> & _) | [(_ & sb & _ & _ & _ & -> & _)
                                 | (_ & _ & _ & _ & -> & _)]];
      apply permission_bits_bound. }
  assert (Hflags : info_flags base = 0 \/ info_flags base = 1).
  { pose proof (posix_attributes_cases E fs uri path lsb) as Hpa.
    cbv zeta in Hpa. fold base in Hpa.
    destruct Hpa
      as [(_ & _ & -> & _) | [(_ & sb & _ & _ & -> & _) | (_ & _ & _ & -> & _)]];
      [left | right | right]; reflexivity. }
  destruct Hcases as [(name & _ & ->) | (_ & _ & ->)].
  - simpl. repeat split; try assumption; try lia;
      destruct Hflags as [-> | ->]; reflexivity || lia.
  - destruct (regular_case_keeps E fs path
                (set_mime_info base
                   (thunar_vfs_mime_database_get_info_for_file E fs path
                      (info_display_name base))))
      as (_ & -> & _ & _ & _ & _ & _ & _ & _ & _ & _ & -> & -> & -> & Hf).
    simpl. simpl in Hf.
    repeat split; try assumption; try lia;
      destruct Hf as [-> | ->]; destruct Hflags as [-> | ->];
      reflexivity || (vm_compute; congruence) || lia.
Qed.

Lemma new_for_uri_invariants_witness :
  info_ref_count editor_info = 1
  /\ info_uri editor_info = "/home/u/editor.desktop"
  /\ info_display_name editor_info = "editor.desktop"
  /\ 0 <= info_mode editor_info < 4096
  /\ 0 <= info_flags editor_info < 4
  /\ Z.land (info_flags editor_info)
       (Z.lor THUNAR_VFS_FILE_FLAGS_SYMLINK THUNAR_VFS_FILE_FLAGS_EXECUTABLE)
     = info_flags editor_info.
Proof.
  apply (new_for_uri_invariants Sample.env Sample.disk "/home/u/editor.desktop"
           editor_info).
  reflexivity.
Defined.

(** X5: the builder returns a descriptor exactly when the link-level stat
    succeeds and the resolved file type is one the switch has a case for
    (socket, symlink, block device, directory, character device, fifo,
    regular); with any other type it reaches the assertion of the default
    case.  The type of a descriptor is always one of the seven. *)
Theorem new_for_uri_outcome (E : Env) (fs : FileSystem E)
    (uri : ThunarVfsURI E) :
  let path := thunar_vfs_uri_get_path E uri in
  ((exists info, thunar_vfs_info_new_for_uri E fs uri = BuildOk info)
   <-> exists lsb,
         lstat E fs path = SysOk lsb
         /\ In (info_type (posix_attributes E fs uri path lsb))
               recognized_types)
  /\ (thunar_vfs_info_new_for_uri E fs uri = BuildNotReached
      <-> exists lsb,
            lstat E fs path = SysOk lsb
            /\ ~ In (info_type (posix_attributes E fs uri path lsb))
                    recognized_types)
  /\ (forall info,
        thunar_vfs_info_new_for_uri E fs uri = BuildOk info ->
        In (info_type info) recognized_types).
Proof.
  intros path.
  assert (Hcases : forall lsb,
            lstat E fs path = SysOk lsb ->
            (In (info_type (posix_attributes E fs uri path lsb))
                recognized_types
             /\ exists info,
                  thunar_vfs_info_new_for_uri E fs uri = BuildOk info
                  /\ info_type info
                     = info_type (posix_attributes E fs uri path lsb))
            \/ (~ In (info_type (posix_attributes E fs uri path lsb))
                     recognized_types
                /\ thunar_vfs_info_new_for_uri E fs uri = BuildNotReached)).
  { intros lsb Hlstat. unfold thunar_vfs_info_new_for_uri. fold path.
    rewrite Hlstat, determine_mime_type_cases, recognized_types_spec.
    set (base := posix_attributes E fs uri path lsb).
    destruct (fixed_mime_name (info_type base)) as [name |] eqn:Hfixed.
    - left. split; [left; discriminate |].
      eexists; split; reflexivity.
    - destruct (Z.eqb_spec (info_type base) THUNAR_VFS_FILE_TYPE_REGULAR)
        as [Hreg | Hreg].
      + left. split; [right; exact Hreg |].
        eexists; split; [reflexivity |].
        destruct (regular_case_keeps E fs path
                    (set_mime_info base
                       (thunar_vfs_mime_database_get_info_for_file E fs path
                          (info_display_name base)))) as (-> & _).
        reflexivity.
      + right. split; [| reflexivity].
        intros [H | H]; [apply H; reflexivity | contradiction]. }
  split; [| split].
  - split.
    + intros (info & Hbuild).
      destruct (new_for_uri_inv E fs uri info Hbuild) as (lsb & Hlstat & _).
      exists lsb; split; [exact Hlstat |].
      destruct (Hcases lsb Hlstat) as [(Hin & _) | (_ & Hnr)];
        [exact Hin | congruence].
    + intros (lsb & Hlstat & Hin).
      destruct (Hcases lsb Hlstat) as [(_ & info & Hbuild & _) | (Hnin & _)];
        [exists info; exact Hbuild | contradiction].
  - split.
    + intros Hnr.
      destruct (lstat E fs path) as [lsb | errno] eqn:Hlstat.
      * exists lsb; split; [reflexivity |].
        destruct (Hcases lsb eq_refl) as [(_ & info & Hbuild & _) | (Hnin & _)];
          [congruence | exact Hnin].
      * unfold thunar_vfs_info_new_for_uri in Hnr. fold path in Hnr.
        rewrite Hlstat in Hnr. discriminate.
    + intros (lsb & Hlstat & Hnin).
      destruct (Hcases lsb Hlstat) as [(Hin & _) | (_ & Hnr)];
        [contradiction | exact Hnr].
  - intros info Hbuild.
    destruct (new_for_uri_inv E fs uri info Hbuild) as (lsb & Hlstat & _).
    fold path in Hlstat.
    destruct (Hcases lsb Hlstat) as [(Hin & info' & Hbuild' & Ht) | (_ & Hnr)];
      [| congruence].
    rewrite Hbuild in Hbuild'. injection Hbuild' as <-.
    rewrite Ht. exact Hin.
Qed.

(** X6: a descriptor whose type is not "regular" has the content type fixed
    for its type, looked up by name and not through the file, and is never
    flagged executable, whatever its permission bits. *)
Theorem non_regular_descriptor (E : Env) (fs : FileSystem E)
    (uri : ThunarVfsURI E) (info : ThunarVfsInfo E) :
  thunar_vfs_info_new_for_uri E fs uri = BuildOk info ->
  info_type info <> THUNAR_VFS_FILE_TYPE_REGULAR ->
  (exists name,
     fixed_mime_name (info_type info) = Some name
     /\ info_mime_info info = thunar_vfs_mime_database_get_info E name)
  /\ has_flag (info_flags info) THUNAR_VFS_FILE_FLAGS_EXECUTABLE = false
  /\ info_hints info = None.
Proof.
  intros Hbuild Hnr.
  destruct (new_for_uri_inv E fs uri info Hbuild) as (lsb & _ & Hcases).
  cbv zeta in Hcases.
  set (path := thunar_vfs_uri_get_path E uri) in *.
  destruct (posix_attributes_plain E fs uri path lsb)
    as (Hnone & _ & _ & _ & Hclear).
  destruct Hcases as [(name & Hfixed & ->) | (_ & Hreg & ->)].
  - simpl. split; [exists name; split; [exact Hfixed | reflexivity] |].
    split; [exact Hclear | exact Hnone].
  - exfalso. apply Hnr.
    destruct (regular_case_keeps E fs path
                (set_mime_info (posix_attributes E fs uri path lsb)
                   (thunar_vfs_mime_database_get_info_for_file E fs path
                      (info_display_name
                         (posix_attributes E fs uri path lsb)))))
      as (-> & _).
    exact Hreg.
Qed.

Lemma non_regular_descriptor_witness :
  exists info,
    thunar_vfs_info_new_for_uri Sample.env Sample.disk "/home/u" = BuildOk info
    /\ Z.testbit (info_mode info) 6 = true
    /\ g_access Sample.env Sample.disk "/home/u" X_OK = 0
    /\ (exists name,
          fixed_mime_name (info_type info) = Some name
          /\ info_mime_info info = Sample.mime_by_name name)
    /\ has_flag (info_flags info) THUNAR_VFS_FILE_FLAGS_EXECUTABLE = false
    /\ info_hints info = None.
Proof.
  eexists. split; [reflexivity |]. split; [reflexivity |].
  split; [reflexivity |].
  apply (non_regular_descriptor Sample.env Sample.disk "/home/u");
    [reflexivity | discriminate].
Defined.

(** * Further properties of the hints *)

Section HintMore.
Variable E : Env.

Lemma new_for_uri_live (fs : FileSystem E) (uri : ThunarVfsURI E)
    (info : ThunarVfsInfo E) :
  thunar_vfs_info_new_for_uri E fs uri = BuildOk info ->
  info_ref_count info = 1.
Proof.
  intros Hbuild.
  destruct (new_for_uri_inv E fs uri info Hbuild) as (lsb & _ & Hcases).
  cbv zeta in Hcases.
  destruct (posix_attributes_plain E fs uri (thunar_vfs_uri_get_path E uri) lsb)
    as (_ & Href & _).
  destruct Hcases as [(name & _ & ->) | (_ & _ & ->)]; [exact Href |].
  destruct (regular_case_keeps E fs (thunar_vfs_uri_get_path E uri)
              (set_mime_info
                 (posix_attributes E fs uri (thunar_vfs_uri_get_path E uri) lsb)
                 (thunar_vfs_mime_database_get_info_for_file E fs
                    (thunar_vfs_uri_get_path E uri)
                    (info_display_name
                       (posix_attributes E fs uri
                          (thunar_vfs_uri_get_path E uri) lsb)))))
    as (_ & _ & _ & _ & _ & _ & _ & _ & _ & _ & _ & _ & _ & -> & _).
  exact Href.
Qed.

(** The table that the builder fills for a readable launcher. *)
Lemma check_desktop_hint_table (fs : FileSystem E) (path : string)
    (info : ThunarVfsInfo E) (rc : XfceRc E) :
  thunar_vfs_mime_info_get_name E (info_mime_info info)
  = "application/x-desktop" ->
  xfce_rc_simple_open fs path true = Some rc ->
  info_hints (check_desktop E fs path info)
  = Some [xfce_rc_lookup E (rc_data rc) (Some "Desktop Entry") "Icon" false;
          xfce_rc_lookup E (rc_data rc) (Some "Desktop Entry") "Name" true].
Proof.
  intros Hd Hopen. unfold check_desktop.
  apply String.eqb_eq in Hd. rewrite Hd, Hopen.
  unfold xfce_rc_read_entry_untranslated, xfce_rc_read_entry, xfce_rc_set_group.
  simpl.
  destruct (desktop_is_application E _); simpl;
    destruct (xfce_rc_lookup E (rc_data rc) (Some "Desktop Entry") "Icon" false);
    destruct (xfce_rc_lookup E (rc_data rc) (Some "Desktop Entry") "Name" true);
    reflexivity.
Qed.

(** Rename leaves the reference count and the icon entry alone. *)
Lemma rename_keeps_icon (info : ThunarVfsInfo E) (name : string)
    (fs : FileSystem E) :
  let info' := rename_info (thunar_vfs_info_rename E info name fs) in
  info_ref_count info' = info_ref_count info
  /\ ((fun hints : list (option string) => hints !! THUNAR_VFS_FILE_HINT_ICON)
        <$> info_hints info')
     = ((fun hints : list (option string) => hints !! THUNAR_VFS_FILE_HINT_ICON)
          <$> info_hints info).
Proof.
  rename_cases E info name fs; simpl; try (split; reflexivity).
  - unfold update_name_hint.
    destruct (info_hints info) as [h |] eqn:Hh; simpl;
      [| rewrite Hh; split; reflexivity].
    split; [reflexivity |].
    rewrite list_lookup_insert_ne; [reflexivity | discriminate].
  - unfold update_after_rename. simpl.
    destruct (info_type info =? THUNAR_VFS_FILE_TYPE_REGULAR); simpl;
      split; reflexivity.
Qed.

End HintMore.

(** X7: the hints of a built descriptor, read through
    [thunar_vfs_info_get_hint]: a value comes back only for a readable
    launcher, and then the icon hint is the untranslated Icon entry and the
    name hint the translated Name entry of the group "Desktop Entry"; any
    other hint kind, and any hint of another file, is absent. *)
Theorem built_hints (E : Env) (fs : FileSystem E) (uri : ThunarVfsURI E)
    (info : ThunarVfsInfo E) :
  thunar_vfs_info_new_for_uri E fs uri = BuildOk info ->
  forall (hint : nat) (value : string),
    thunar_vfs_info_get_hint E info hint = Some value
    <-> info_type info = THUNAR_VFS_FILE_TYPE_REGULAR
        /\ thunar_vfs_mime_info_get_name E (info_mime_info info)
           = "application/x-desktop"
        /\ exists rc,
             xfce_rc_simple_open fs (thunar_vfs_uri_get_path E uri) true
             = Some rc
             /\ ((hint = THUNAR_VFS_FILE_HINT_ICON
                  /\ xfce_rc_lookup E (rc_data rc) (Some "Desktop Entry")
                       "Icon" false = Some value)
                 \/ (hint = THUNAR_VFS_FILE_HINT_NAME
                     /\ xfce_rc_lookup E (rc_data rc) (Some "Desktop Entry")
                          "Name" true = Some value)).
Proof.
  intros Hbuild hint value.
  pose proof (new_for_uri_live E fs uri info Hbuild) as Href.
  pose proof (new_for_uri_hints E fs uri info Hbuild) as Hhints.
  set (path := thunar_vfs_uri_get_path E uri) in *.
  unfold thunar_vfs_info_get_hint. rewrite Href. simpl.
  destruct (info_hints info) as [hints |] eqn:Hh.
  - assert (Hl : info_type info = THUNAR_VFS_FILE_TYPE_REGULAR
                 /\ thunar_vfs_mime_info_get_name E (info_mime_info info)
                    = "application/x-desktop"
                 /\ xfce_rc_simple_open fs path true <> None)
      by (apply Hhints; discriminate).
    destruct Hl as (Hreg & Hd & Hopen).
    destruct (xfce_rc_simple_open fs path true) as [rc |] eqn:Hrc;
      [| contradiction].
    destruct (new_for_uri_regular E fs uri info Hbuild Hreg) as (lsb & _ & Hinfo).
    fold path in Hinfo. cbv zeta in Hinfo.
    set (pre := set_mime_info _ _) in Hinfo.
    assert (Hd' : thunar_vfs_mime_info_get_name E
                    (info_mime_info (check_executable E fs path pre))
                  = "application/x-desktop").
    { destruct (check_desktop_other E fs path (check_executable E fs path pre))
        as (_ & _ & Hm & _).
      rewrite <- Hm, <- Hinfo. exact Hd. }
    pose proof (check_desktop_hint_table E fs path _ rc Hd' Hrc) as Htable.
    rewrite <- Hinfo, Hh in Htable. injection Htable as ->.
    split.
    + intros Hget.
      split; [exact Hreg |]. split; [exact Hd |].
      exists rc. split; [reflexivity |].
      destruct hint as [| [| hint]]; simpl in Hget.
      * left. split; [reflexivity | exact Hget].
      * right. split; [reflexivity | exact Hget].
      * discriminate Hget.
    + intros (_ & _ & rc' & Hrc' & Hcase).
      injection Hrc' as <-.
      destruct Hcase as [(-> & Hv) | (-> & Hv)]; simpl; exact Hv.
  - split; [discriminate |].
    intros (Hreg & Hd & rc & Hrc & _).
    exfalso.
    apply (proj2 Hhints); [| reflexivity].
    repeat split; try assumption; congruence.
Qed.

Lemma built_hints_witness :
  thunar_vfs_info_get_hint Sample.env editor_info THUNAR_VFS_FILE_HINT_NAME
  = Some "Texteditor"
  /\ thunar_vfs_info_get_hint Sample.env editor_info THUNAR_VFS_FILE_HINT_ICON
     = Some "accessories-text-editor"
  /\ ~ (exists value,
          thunar_vfs_info_get_hint Sample.env notes_info
            THUNAR_VFS_FILE_HINT_NAME = Some value).
Proof.
  split; [| split].
  - apply (built_hints Sample.env Sample.disk "/home/u/editor.desktop"
             editor_info eq_refl).
    split; [reflexivity |]. split; [reflexivity |].
    eexists. split; [reflexivity |]. right. split; reflexivity.
  - apply (built_hints Sample.env Sample.disk "/home/u/editor.desktop"
             editor_info eq_refl).
    split; [reflexivity |]. split; [reflexivity |].
    eexists. split; [reflexivity |]. left. split; reflexivity.
  - intros (value & Hget).
    apply (built_hints Sample.env Sample.disk "/home/u/notes.txt"
             notes_info eq_refl) in Hget.
    destruct Hget as (_ & Hd & _). discriminate Hd.
Defined.

(** X8: no call of rename, whatever its outcome, changes the icon hint or
    the reference count of the descriptor: only the name hint is ever
    rewritten. *)
Theorem rename_keeps_icon_hint (E : Env) (info : ThunarVfsInfo E)
    (name : string) (fs : FileSystem E) :
  let info' := rename_info (thunar_vfs_info_rename E info name fs) in
  info_ref_count info' = info_ref_count info
  /\ thunar_vfs_info_get_hint E info' THUNAR_VFS_FILE_HINT_ICON
     = thunar_vfs_info_get_hint E info THUNAR_VFS_FILE_HINT_ICON.
Proof.
  destruct (rename_keeps_icon E info name fs) as [Href Hicon].
  cbv zeta in *. split; [exact Href |].
  unfold thunar_vfs_info_get_hint. rewrite Href.
  destruct (negb (0 <? info_ref_count info)); [reflexivity |].
  destruct (info_hints (rename_info (thunar_vfs_info_rename E info name fs)))
    as [h' |], (info_hints info) as [h |]; simpl in Hicon;
    try discriminate Hicon; [| reflexivity].
  injection Hicon as Hicon. simpl. rewrite Hicon. reflexivity.
Qed.

(** * Further properties of rename *)

(** X9: no call of rename, successful or not, touches the type, the
    permission bits, the flags, the owner, the size, the times, the inode,
    the device or the reference count of the descriptor: they stay as the
    builder read them, also when the content type is resolved anew. *)
Theorem rename_keeps_attributes (E : Env) (info : ThunarVfsInfo E)
    (name : string) (fs : FileSystem E) :
  attributes_kept (rename_info (thunar_vfs_info_rename E info name fs)) info.
Proof.
  unfold attributes_kept.
  rename_cases E info name fs; simpl; try tauto.
  - unfold update_name_hint. destruct (info_hints info); simpl; tauto.
  - unfold update_after_rename. simpl.
    destruct (info_type info =? THUNAR_VFS_FILE_TYPE_REGULAR); simpl; tauto.
Qed.

(** X10: renaming a file that is no launcher, with a valid name whose sibling
    path is free, issues one rename call from the descriptor's path to that
    sibling path; when the call succeeds the descriptor points to the new
    path, displays the new name, keeps its hints, and has its content type
    resolved anew from the new path and name if it is a regular file, and
    kept otherwise. *)
Theorem rename_file (E : Env) (info : ThunarVfsInfo E) (name : string)
    (fs fs' : FileSystem E) (dst_name : string) :
  let src_path := thunar_vfs_uri_get_path E (info_uri info) in
  let dst_path :=
    g_build_filename E (g_path_get_dirname E src_path) dst_name in
  0 < info_ref_count info ->
  g_utf8_validate E name = true ->
  valid_name name ->
  thunar_vfs_mime_info_get_name E (info_mime_info info)
  <> "application/x-desktop" ->
  g_filename_from_utf8 E name = inr dst_name ->
  g_file_test_exists E fs dst_path = false ->
  g_rename E fs src_path dst_path = SysOk fs' ->
  let after := thunar_vfs_info_rename E info name fs in
  rename_return after = true
  /\ rename_error after = None
  /\ rename_calls after = [CallRename src_path dst_path]
  /\ rename_fs after = fs'
  /\ info_uri (rename_info after) = thunar_vfs_uri_new_for_path E dst_path
  /\ info_display_name (rename_info after) = name
  /\ info_hints (rename_info after) = info_hints info
  /\ (info_type info = THUNAR_VFS_FILE_TYPE_REGULAR ->
      info_mime_info (rename_info after)
      = thunar_vfs_mime_database_get_info_for_file E fs' dst_path name)
  /\ (info_type info <> THUNAR_VFS_FILE_TYPE_REGULAR ->
      info_mime_info (rename_info after) = info_mime_info info).
Proof.
  intros src_path dst_path Hlive Hutf8 Hvalid Hnd Hconv Hfree Hrename after.
  unfold after, thunar_vfs_info_rename.
  apply Z.ltb_lt in Hlive. apply valid_name_check in Hvalid.
  rewrite Hlive, Hutf8, Hvalid. simpl.
  destruct (String.eqb_spec
              (thunar_vfs_mime_info_get_name E (info_mime_info info))
              "application/x-desktop") as [Hd | _]; [contradiction |].
  fold src_path. rewrite Hconv. fold dst_path. rewrite Hfree, Hrename. simpl.
  unfold update_after_rename. simpl.
  destruct (Z.eqb_spec (info_type info) THUNAR_VFS_FILE_TYPE_REGULAR)
    as [Hreg | Hreg]; simpl; repeat split; try reflexivity;
    intros H; contradiction.
Qed.

Lemma rename_file_witness :
  let after :=
    thunar_vfs_info_rename Sample.env notes_info "todo.sh" Sample.disk in
  rename_return after = true
  /\ rename_error after = None
  /\ rename_calls after = [CallRename "/home/u/notes.txt" "/home/u/todo.sh"]
  /\ rename_fs after
     = Sample.move_file Sample.disk "/home/u/notes.txt" "/home/u/todo.sh"
  /\ info_uri (rename_info after) = "/home/u/todo.sh"
  /\ info_display_name (rename_info after) = "todo.sh"
  /\ info_hints (rename_info after) = info_hints notes_info
  /\ (info_type notes_info = THUNAR_VFS_FILE_TYPE_REGULAR ->
      info_mime_info (rename_info after)
      = thunar_vfs_mime_database_get_info_for_file Sample.env
          (Sample.move_file Sample.disk "/home/u/notes.txt" "/home/u/todo.sh")
          "/home/u/todo.sh" "todo.sh")
  /\ (info_type notes_info <> THUNAR_VFS_FILE_TYPE_REGULAR ->
      info_mime_info (rename_info after) = info_mime_info notes_info).
Proof.
  intros after.
  apply (rename_file Sample.env notes_info "todo.sh" Sample.disk
           (Sample.move_file Sample.disk "/home/u/notes.txt" "/home/u/todo.sh")
           "todo.sh").
  - reflexivity.
  - reflexivity.
  - split; [discriminate | reflexivity].
  - discriminate.
  - reflexivity.
  - reflexivity.
  - reflexivity.
Defined.

(** X11: rename sets an error exactly when it fails after its entry checks.
    A call on a descriptor without references or on a name that is not valid
    UTF-8 returns failure without an error, without a call and without a
    change; any other failure comes with an error; a success comes with
    none. *)
Theorem rename_error_reporting (E : Env) (info : ThunarVfsInfo E)
    (name : string) (fs : FileSystem E) :
  let after := thunar_vfs_info_rename E info name fs in
  (rename_return after = true -> rename_error after = None)
  /\ (0 < info_ref_count info ->
      g_utf8_validate E name = true ->
      rename_return after = false ->
      rename_error after <> None)
  /\ (info_ref_count info <= 0 \/ g_utf8_validate E name = false ->
      rename_return after = false
      /\ rename_error after = None
      /\ rename_calls after = []
      /\ rename_fs after = fs
      /\ rename_info after = info).
Proof.
  cbv zeta.
  rename_cases E info name fs; simpl;
    (split; [| split]);
    try (intros; reflexivity); try discriminate;
    try (intros; discriminate);
    try (apply Z.ltb_lt in Hlive; intros [H | H]; [lia | congruence]);
    try (apply Z.ltb_ge in Hlive; intros; lia);
    try (intros; repeat split; reflexivity).
Qed.

(** X12: rename issues at most one call that changes the file system, and
    the file system changes only through it.  For a launcher the call writes
    text to the launcher's own path and never renames a file; for any other
    file the call renames the descriptor's path to a sibling path and never
    writes text; a failed rename call leaves the file system as it was. *)
Theorem rename_calls_discipline (E : Env) (info : ThunarVfsInfo E)
    (name : string) (fs : FileSystem E) :
  let after := thunar_vfs_info_rename E info name fs in
  let src_path := thunar_vfs_uri_get_path E (info_uri info) in
  (rename_calls after = [] /\ rename_fs after = fs
   /\ rename_return after = false)
  \/ (thunar_vfs_mime_info_get_name E (info_mime_info info)
      = "application/x-desktop"
      /\ exists data,
           rename_calls after = [CallFileSetContents src_path data]
           /\ rename_fs after = fst (g_file_set_contents E fs src_path data)
           /\ (rename_return after = true
               <-> snd (g_file_set_contents E fs src_path data) = None))
  \/ (thunar_vfs_mime_info_get_name E (info_mime_info info)
      <> "application/x-desktop"
      /\ exists dst_name,
           g_filename_from_utf8 E name = inr dst_name
           /\ let dst_path :=
                g_build_filename E (g_path_get_dirname E src_path) dst_name in
              rename_calls after = [CallRename src_path dst_path]
              /\ ((rename_return after = true
                   /\ g_rename E fs src_path dst_path
                      = SysOk (rename_fs after))
                  \/ (rename_return after = false
                      /\ rename_fs after = fs
                      /\ exists errno,
                           g_rename E fs src_path dst_path = SysErr errno))).
Proof.
  cbv zeta.
  rename_cases E info name fs; simpl;
    try (left; repeat split; reflexivity).
  - right; left. split; [exact Hdesktop |].
    exists data. rewrite Hwrite. simpl.
    repeat split; discriminate.
  - right; left. split; [exact Hdesktop |].
    exists data. rewrite Hwrite. simpl.
    repeat split; reflexivity.
  - right; right. split; [exact Hdesktop |].
    exists dst_name. split; [reflexivity |].
    split; [reflexivity |]. left. split; [reflexivity | exact Hrename].
  - right; right. split; [exact Hdesktop |].
    exists dst_name. split; [reflexivity |].
    split; [reflexivity |]. right. repeat split. exists errno; exact Hrename.
Qed.

(** X13: whatever a rename of a launcher does, the descriptor it leaves
    still matches the descriptor it was given (the location's equality
    being reflexive): renaming a launcher rewrites the launcher's text and
    the name hint, which the comparison does not look at. *)
Theorem rename_launcher_still_matches (E : Env) (info : ThunarVfsInfo E)
    (name : string) (fs : FileSystem E) :
  (forall u, thunar_vfs_uri_equal E u u = true) ->
  0 < info_ref_count info ->
  thunar_vfs_mime_info_get_name E (info_mime_info info)
  = "application/x-desktop" ->
  thunar_vfs_info_matches E
    (Some (rename_info (thunar_vfs_info_rename E info name fs))) (Some info)
  = true.
Proof.
  intros Hrefl Hpos Hd.
  apply matches_true_iff. unfold attributes_compared.
  rename_cases E info name fs; simpl; try contradiction;
    try (rewrite Hrefl; repeat split; try reflexivity; exact Hpos).
  unfold update_name_hint.
  destruct (info_hints info); simpl;
    rewrite Hrefl; repeat split; try reflexivity; exact Hpos.
Qed.

Lemma rename_launcher_still_matches_witness :
  thunar_vfs_info_matches Sample.env
    (Some (rename_info
             (thunar_vfs_info_rename Sample.env editor_info "Schreiber"
                Sample.disk)))
    (Some editor_info)
  = true.
Proof.
  apply (rename_launcher_still_matches Sample.env editor_info "Schreiber"
           Sample.disk).
  - exact String.eqb_refl.
  - reflexivity.
  - reflexivity.
Defined.

(** * Further properties of the comparison and of execute *)



(** X15: execute returns success exactly when the descriptor is live, the
    command line is built and the launcher reports no error.  It calls the
    launcher at most once, and not at all for a descriptor without references
    or when the command line cannot be built; the error of a failed
    construction or of a failed launch is handed on as it is, and a call on a
    descriptor without references sets none. *)
Theorem execute_outcome (E : Env) (info : ThunarVfsInfo E)
    (screen : option (GdkScreen E)) (uris : list (ThunarVfsURI E))
    (fs : FileSystem E) :
  let after := thunar_vfs_info_execute E info screen uris fs in
  let working_directory :=
    working_directory_of E uris (thunar_vfs_uri_get_path E (info_uri info)) in
  let spawn argv :=
    gdk_spawn_on_screen E fs (default (gdk_screen_get_default E) screen)
      working_directory argv in
  (execute_return after = true
   <-> 0 < info_ref_count info
       /\ exists argv,
            execute_command_line E info uris fs = inr argv
            /\ spawn argv = None)
  /\ (execute_calls after = []
      <-> info_ref_count info <= 0
          \/ exists err, execute_command_line E info uris fs = inl err)
  /\ (info_ref_count info <= 0 -> execute_error after = None)
  /\ (0 < info_ref_count info ->
      forall err,
        execute_command_line E info uris fs = inl err ->
        execute_error after = Some err)
  /\ (0 < info_ref_count info ->
      forall argv,
        execute_command_line E info uris fs = inr argv ->
        execute_error after = spawn argv)
  /\ (length (execute_calls after) <= 1)%nat
  /\ (0 < info_ref_count info ->
      forall argv,
        execute_command_line E info uris fs = inr argv ->
        execute_calls after
        = [CallSpawnOnScreen (default (gdk_screen_get_default E) screen)
             working_directory argv]).
Proof.
  cbv zeta. unfold thunar_vfs_info_execute.
  assert (Hscreen :
            match screen with
            | Some s => s
            | None => gdk_screen_get_default E
            end = default (gdk_screen_get_default E) screen)
    by (destruct screen; reflexivity).
  rewrite Hscreen.
  destruct (Z.ltb_spec 0 (info_ref_count info)) as [Hlive | Hdead]; simpl.
  - destruct (execute_command_line E info uris fs) as [err | argv] eqn:Hcmd.
    + simpl. repeat apply conj.
      * discriminate.
      * intros (_ & argv & Heq & _). discriminate.
      * intros _; right; exists err; reflexivity.
      * reflexivity.
      * lia.
      * intros _ err' Heq. congruence.
      * intros _ argv Heq. discriminate.
      * lia.
      * intros _ argv Heq. discriminate.
    + destruct (gdk_spawn_on_screen E fs
                  (default (gdk_screen_get_default E) screen)
                  (working_directory_of E uris
                     (thunar_vfs_uri_get_path E (info_uri info))) argv)
        as [err |] eqn:Hspawn; simpl; repeat apply conj.
      * discriminate.
      * intros (_ & argv' & Heq & Hs). injection Heq as <-. congruence.
      * discriminate.
      * intros [H | (err' & Heq)]; [lia | discriminate].
      * lia.
      * intros _ err' Heq. discriminate.
      * intros _ argv' Heq. injection Heq as <-. symmetry; exact Hspawn.
      * lia.
      * intros _ argv' Heq. injection Heq as <-. reflexivity.
      * intros _. split; [exact Hlive |]. exists argv. split; [reflexivity |].
        exact Hspawn.
      * reflexivity.
      * discriminate.
      * intros [H | (err' & Heq)]; [lia | discriminate].
      * lia.
      * intros _ err' Heq. discriminate.
      * intros _ argv' Heq. injection Heq as <-. symmetry; exact Hspawn.
      * lia.
      * intros _ argv' Heq. injection Heq as <-. reflexivity.
  - repeat apply conj.
    + discriminate.
    + intros (H & _); lia.
    + intros _; left; exact Hdead.
    + reflexivity.
    + reflexivity.
    + lia.
    + lia.
    + lia.
    + lia.
Qed.

(** X16: executing a launcher that cannot be read fails with "Unable to
    parse file", and executing one whose rc file has no Exec entry in its
    current group fails with "No Exec field specified"; both are errors of
    the invalid-argument kind, and in neither case is anything launched. *)
Theorem execute_launcher_errors (E : Env) (info : ThunarVfsInfo E)
    (screen : option (GdkScreen E)) (uris : list (ThunarVfsURI E))
    (fs : FileSystem E) :
  let path := thunar_vfs_uri_get_path E (info_uri info) in
  0 < info_ref_count info ->
  thunar_vfs_mime_info_get_name E (info_mime_info info)
  = "application/x-desktop" ->
  (xfce_rc_simple_open fs path true = None ->
   thunar_vfs_info_execute E info screen uris fs
   = {| execute_return := false;
        execute_error := Some {| error_code := G_FILE_ERROR_INVAL;
                                 error_message := "Unable to parse file" |};
        execute_calls := [] |})
  /\ (forall rc,
        xfce_rc_simple_open fs path true = Some rc ->
        xfce_rc_lookup E (rc_data rc) (rc_group rc) "Exec" false = None ->
        thunar_vfs_info_execute E info screen uris fs
        = {| execute_return := false;
             execute_error :=
               Some {| error_code := G_FILE_ERROR_INVAL;
                       error_message := "No Exec field specified" |};
             execute_calls := [] |}).
Proof.
  intros path Hlive Hd.
  apply Z.ltb_lt in Hlive. apply String.eqb_eq in Hd.
  split.
  - intros Hopen. unfold thunar_vfs_info_execute, execute_command_line.
    fold path. rewrite Hlive, Hd, Hopen. reflexivity.
  - intros rc Hopen Hexec.
    unfold thunar_vfs_info_execute, execute_command_line.
    fold path. rewrite Hlive, Hd, Hopen. simpl.
    unfold xfce_rc_read_entry_untranslated. rewrite Hexec. reflexivity.
Qed.

Example link_and_locked_built :
  thunar_vfs_info_new_for_uri Sample.env Sample.disk "/home/u/link.desktop"
  = BuildOk link_info
  /\ thunar_vfs_info_new_for_uri Sample.env Sample.disk
       "/home/u/locked.desktop" = BuildOk locked_info.
Proof. split; reflexivity. Qed.

Lemma execute_launcher_errors_witness :
  thunar_vfs_info_execute Sample.env locked_info None [] Sample.disk
  = {| execute_return := false;
       execute_error := Some {| error_code := G_FILE_ERROR_INVAL;
                                error_message := "Unable to parse file" |};
       execute_calls := [] |}
  /\ thunar_vfs_info_execute Sample.env link_info None [] Sample.disk
     = {| execute_return := false;
          execute_error :=
            Some {| error_code := G_FILE_ERROR_INVAL;
                    error_message := "No Exec field specified" |};
          execute_calls := [] |}.
Proof.
  split.
  - apply (execute_launcher_errors Sample.env locked_info None [] Sample.disk);
      reflexivity.
  - apply (proj2 (execute_launcher_errors Sample.env link_info None []
                    Sample.disk ltac:(reflexivity) ltac:(reflexivity))
             {| rc_data := Sample.parse Sample.link_text : XfceRcData Sample.env;
                rc_group := None |});
      reflexivity.
Defined.

(** The characters that [strchr] finds are those of the string. *)
Lemma strchr_spec (s : string) (c : Ascii.ascii) :
  strchr s c = true <-> In c (String.list_ascii_of_string s).
Proof.
  induction s as [| x rest IH]; simpl.
  - split; [discriminate | intros []].
  - destruct (Ascii.eqb_spec x c) as [-> | Hne].
    + split; [intros _; left; reflexivity | reflexivity].
    + rewrite IH. split; [intros H; right; exact H |].
      intros [H | H]; [contradiction | exact H].
Qed.

(** X17: a new name that is empty or holds a slash anywhere is refused with
    the error "Invalid file name" of the invalid-argument kind, for launchers
    and other files alike, before any file is read or touched. *)
Theorem rename_invalid_name (E : Env) (info : ThunarVfsInfo E) (name : string)
    (fs : FileSystem E) :
  0 < info_ref_count info ->
  g_utf8_validate E name = true ->
  name = "" \/ In "/"%char (String.list_ascii_of_string name) ->
  thunar_vfs_info_rename E info name fs
  = {| rename_return := false;
       rename_error := Some {| error_code := G_FILE_ERROR_INVAL;
                               error_message := "Invalid file name" |};
       rename_info := info;
       rename_fs := fs;
       rename_calls := [] |}.
Proof.
  intros Hlive Hutf8 Hbad.
  unfold thunar_vfs_info_rename.
  apply Z.ltb_lt in Hlive. rewrite Hlive, Hutf8. simpl.
  assert (Hcheck : String.eqb name "" || strchr name "/" = true).
  { destruct Hbad as [-> | Hin]; [reflexivity |].
    apply strchr_spec in Hin. rewrite Hin. apply orb_true_r. }
  rewrite Hcheck. reflexivity.
Qed.

Lemma rename_invalid_name_witness :
  thunar_vfs_info_rename Sample.env editor_info "sub/name" Sample.disk
  = {| rename_return := false;
       rename_error := Some {| error_code := G_FILE_ERROR_INVAL;
                               error_message := "Invalid file name" |};
       rename_info := editor_info;
       rename_fs := Sample.disk;
       rename_calls := [] |}
  /\ thunar_vfs_info_rename Sample.env notes_info "" Sample.disk
     = {| rename_return := false;
          rename_error := Some {| error_code := G_FILE_ERROR_INVAL;
                                  error_message := "Invalid file name" |};
          rename_info := notes_info;
          rename_fs := Sample.disk;
          rename_calls := [] |}.
Proof.
  split.
  - apply (rename_invalid_name Sample.env editor_info "sub/name" Sample.disk).
    + reflexivity.
    + reflexivity.
    + right. simpl. tauto.
  - apply (rename_invalid_name Sample.env notes_info "" Sample.disk).
    + reflexivity.
    + reflexivity.
    + left. reflexivity.
Defined.
